(** * DD_Tracing: a shallow embedding of the FastAPI demo service

    The repository has three Python files:
    - [item_service.py]: [ItemService.process_item_data];
    - [logging_config.py]: [configure_logger], run once at import;
    - [main.py]: the correlation middleware and the three routes.

    Python values are an inductive type, exceptions are values of [exn], and
    code that logs, touches the tracer or raises lives in a state-and-error
    monad [M].  The libraries the code calls (logging, python-json-logger,
    ddtrace, FastAPI/Starlette) are modelled only as far as the three files
    use them; each such definition says which library behaviour it follows. *)

From Stdlib Require Import ZArith String Ascii List Bool Lia DecimalString.
From stdpp Require Import gmap strings list fin_maps.

Local Open Scope string_scope.
Local Open Scope Z_scope.
Local Set Warnings "-register-all".

(** ** Python values *)

(** The values the service handles: what JSON can carry.  A [dict] keeps its
    items in insertion order, as Python does; keys are strings. *)
Inductive value : Type :=
| VNone
| VBool (b : bool)
| VInt (z : Z)
| VStr (s : string)
| VList (l : list value)
| VDict (d : list (string * value)).

Abbreviation dict := (list (string * value)).

(** [type(v).__name__] *)
Definition type_name (v : value) : string :=
  match v with
  | VNone => "NoneType"
  | VBool _ => "bool"
  | VInt _ => "int"
  | VStr _ => "str"
  | VList _ => "list"
  | VDict _ => "dict"
  end.

(** [str(n)] for an int, as an f-string renders it.  (CPython's limit on the
    digits of such a conversion, 4300 unless configured, is not modelled.) *)
Definition str_int (z : Z) : string := NilZero.string_of_int (Z.to_int z).

(** [d.get(k)] on the items of a dict. *)
Fixpoint dict_lookup (k : string) (d : dict) : option value :=
  match d with
  | [] => None
  | (k', v) :: rest => if String.eqb k k' then Some v else dict_lookup k rest
  end.

(** [d[k] = v]: an existing key keeps its place, a new one goes last. *)
Fixpoint dict_set (k : string) (v : value) (d : dict) : dict :=
  match d with
  | [] => [(k, v)]
  | (k', v') :: rest =>
      if String.eqb k k' then (k, v) :: rest else (k', v') :: dict_set k v rest
  end.

(** [d.update(other)], also what [{..., **other}] does to the items before it. *)
Definition dict_update (d other : dict) : dict :=
  fold_left (fun acc kv => dict_set (fst kv) (snd kv) acc) other d.

(** ** Exceptions *)

(** [PyError cls text] is an instance of a subclass of [Exception] with
    [str(e) = text]; [PyBaseError] is one of the [BaseException]s that
    [except Exception] lets through (KeyboardInterrupt, SystemExit,
    asyncio.CancelledError); [HTTPException] is FastAPI's. *)
Inductive exn : Type :=
| PyError (cls : string) (text : string)
| PyBaseError (cls : string) (text : string)
| HTTPException (status_code : Z) (detail : string).

Definition is_Exception (e : exn) : bool :=
  match e with
  | PyBaseError _ _ => false
  | _ => true
  end.

(** [str(e)]; Starlette's [HTTPException.__str__] is ["{status_code}: {detail}"]. *)
Definition str_exn (e : exn) : string :=
  match e with
  | PyError _ text => text
  | PyBaseError _ text => text
  | HTTPException status_code detail => str_int status_code +:+ ": " +:+ detail
  end.

Definition AttributeError (type_ attr : string) : exn :=
  PyError "AttributeError"
    ("'" +:+ type_ +:+ "' object has no attribute '" +:+ attr +:+ "'").

Definition double_quote : string := String (ascii_of_nat 34) EmptyString.

(** The [KeyError] of [Logger.makeRecord]; [str] of a KeyError is the repr of
    its argument (written here for a key without quotes or escapes). *)
Definition LogRecordKeyError (key : string) : exn :=
  PyError "KeyError"
    (double_quote +:+ "Attempt to overwrite '" +:+ key +:+ "' in LogRecord"
       +:+ double_quote).

(** ** Results and the state-and-error monad *)

Inductive result (A : Type) : Type :=
| Ok (a : A)
| Raise (e : exn).
Arguments Ok {A} a.
Arguments Raise {A} e.

Section Monad.
Context {St : Type}.

Definition M (A : Type) : Type := St -> result A * St.

Definition ret {A} (a : A) : M A := fun s => (Ok a, s).

Definition raise {A} (e : exn) : M A := fun s => (Raise e, s).

Definition bind {A B} (m : M A) (k : A -> M B) : M B :=
  fun s =>
    match m s with
    | (Ok a, s') => k a s'
    | (Raise e, s') => (Raise e, s')
    end.

(** [try: body except Exception as e: handler(e)]: the handler runs in the
    state the body left; a [BaseException] outside [Exception] passes. *)
Definition try_except {A} (body : M A) (handler : exn -> M A) : M A :=
  fun s =>
    match body s with
    | (Ok a, s') => (Ok a, s')
    | (Raise e, s') => if is_Exception e then handler e s' else (Raise e, s')
    end.

End Monad.
Arguments M St A : clear implicits.

Notation "x <- c1 ;; c2" := (bind c1 (fun x => c2))
  (at level 100, c1 at next level, right associativity).
Notation "c1 ;; c2" := (bind c1 (fun _ => c2))
  (at level 100, right associativity).

(** ** Logging levels *)

Inductive level : Type := DEBUG | INFO | WARNING | ERROR | CRITICAL.

Definition levelno (l : level) : Z :=
  match l with
  | DEBUG => 10
  | INFO => 20
  | WARNING => 30
  | ERROR => 40
  | CRITICAL => 50
  end.

Definition levelname (l : level) : string :=
  match l with
  | DEBUG => "DEBUG"
  | INFO => "INFO"
  | WARNING => "WARNING"
  | ERROR => "ERROR"
  | CRITICAL => "CRITICAL"
  end.

(** ** The process state the request path touches *)

(** One call of [app_logger.debug/info/warning/error]. *)
Record log_call : Type := LogCall {
  call_level : level;
  call_msg : string;
  call_extra : dict;
  call_exc_info : option exn
}.

(** [logger_level] is [app_logger.getEffectiveLevel()]; [logged] the calls made
    on [app_logger], oldest first; [active_span] the tags of the tracer's active
    span, if there is one; [correlation_context] what
    [tracer.get_log_correlation_context()] returns. *)
Record world : Type := World {
  logger_level : Z;
  logged : list log_call;
  active_span : option (gmap string string);
  correlation_context : dict
}.

Definition with_logged (w : world) (l : list log_call) : world :=
  {| logger_level := logger_level w; logged := l;
     active_span := active_span w;
     correlation_context := correlation_context w |}.

Definition with_active_span (w : world) (s : option (gmap string string)) : world :=
  {| logger_level := logger_level w; logged := logged w;
     active_span := s;
     correlation_context := correlation_context w |}.

(** [Logger.isEnabledFor] *)
Definition isEnabledFor (w : world) (l : level) : bool :=
  logger_level w <=? levelno l.

(** The attributes [Logger.makeRecord] refuses in [extra]: "message",
    "asctime" and every key of a fresh LogRecord's [__dict__]. *)
Definition record_attrs : list string :=
  ["message"; "asctime"; "name"; "msg"; "args"; "levelname"; "levelno";
   "pathname"; "filename"; "module"; "exc_info"; "exc_text"; "stack_info";
   "lineno"; "funcName"; "created"; "msecs"; "relativeCreated"; "thread";
   "threadName"; "processName"; "process"; "taskName"].

Definition is_record_attr (k : string) : bool :=
  existsb (String.eqb k) record_attrs.

(** [app_logger.<level>(msg, exc_info=..., extra=...)].  The call is noted;
    when the level is enabled [makeRecord] raises [KeyError] at the first key
    of [extra] that would overwrite a record attribute.  What the handlers do
    with the record never reaches the caller ([Handler.handleError]). *)
Definition log (l : level) (msg : string) (extra : dict)
    (exc_info : option exn) : M world unit :=
  fun w =>
    let w' := with_logged w (logged w ++ [LogCall l msg extra exc_info]) in
    if isEnabledFor w l then
      match find is_record_attr (map fst extra) with
      | Some k => (Raise (LogRecordKeyError k), w')
      | None => (Ok tt, w')
      end
    else (Ok tt, w').

(** ** item_service.py *)

(** [data.get(key, default)]: a dict answers, any other value has no [get]. *)
Definition get_method (data : value) (key : string) (default : value)
    : M world value :=
  match data with
  | VDict d => ret (match dict_lookup key d with Some v => v | None => default end)
  | _ => raise (AttributeError (type_name data) "get")
  end.

(** The body of the [try] in [process_item_data] (lines 23-32). *)
Definition process_item_data_try (item_id : Z) (data : value) : M world value :=
  name <- get_method data "name" (VStr ("Item " +:+ str_int item_id)) ;;
  let processed_data :=
    VDict [("id", VInt item_id); ("name", name);
           ("status", VStr "processed"); ("original_data", data)] in
  log DEBUG
    ("ItemService: Successfully processed data for item ID: " +:+ str_int item_id)
    [("processed_data", processed_data)] None ;;
  ret processed_data.

(** The [except Exception as e] branch (lines 33-38). *)
Definition process_item_data_except (item_id : Z) (e : exn) : M world value :=
  log ERROR
    ("ItemService: Error processing item ID " +:+ str_int item_id +:+ ": "
       +:+ str_exn e)
    [("item_id", VInt item_id)] (Some e) ;;
  raise e.

(** [ItemService.process_item_data(item_id, data)]; [self.logger] is
    [app_logger].  [item_id] is an int (the route's path parameter); [data] is
    whatever the caller passes, the annotation [dict] is not enforced. *)
Definition process_item_data (item_id : Z) (data : value) : M world value :=
  log INFO ("ItemService: Starting to process item ID: " +:+ str_int item_id)
    [("item_id", VInt item_id)] None ;;
  try_except (process_item_data_try item_id data)
             (process_item_data_except item_id).

(** ** main.py: requests, responses and the tracer *)

Record Request : Type := {
  method : string;
  url_path : string;
  headers : list (string * string)
}.

Record Response : Type := {
  status_code : Z;
  body : value
}.

Definition lower_ascii (c : ascii) : ascii :=
  let n := nat_of_ascii c in
  if ((65 <=? n) && (n <=? 90))%nat then ascii_of_nat (n + 32) else c.

(** [str.lower] on ASCII text. *)
Fixpoint lower (s : string) : string :=
  match s with
  | EmptyString => EmptyString
  | String c rest => String (lower_ascii c) (lower rest)
  end.

(** Starlette's [Headers.get]: the key is lowered and compared with the raw
    header names, which ASGI delivers in lower case; the first match wins. *)
Definition headers_get (request : Request) (key : string) : option string :=
  snd <$> find (fun kv => String.eqb (fst kv) (lower key)) (headers request).

(** The truth value of an optional string: [None] and [""] are false. *)
Definition str_truthy (o : option string) : bool :=
  match o with
  | Some (String _ _) => true
  | _ => false
  end.

(** The objects line 43 can bind [current_span] to: [None], a span handle, or
    a bound method of the tracer. *)
Inductive object : Type :=
| ObjNone
| ObjSpan
| ObjBoundMethod (owner name : string).

(** [bool(obj)]: spans and methods define neither [__bool__] nor [__len__]. *)
Definition truthy (o : object) : bool :=
  match o with
  | ObjNone => false
  | _ => true
  end.

(** [tracer.current_span], as line 43 reads it: the attribute, not a call.
    ddtrace's [Tracer.current_span] is a method ([current_span(self) ->
    Optional[Span]]), so the attribute is the bound method whatever the trace
    state is. *)
Definition tracer_current_span : object :=
  ObjBoundMethod "Tracer" "current_span".

(** [obj.set_tag(key, value)]: a span stores the tag; a method object forwards
    the lookup of [set_tag] to its function, which has no such attribute. *)
Definition set_tag (o : object) (key val : string) : M world unit :=
  match o with
  | ObjSpan =>
      fun w => (Ok tt, with_active_span w (insert key val <$> active_span w))
  | ObjNone => raise (AttributeError "NoneType" "set_tag")
  | ObjBoundMethod _ _ => raise (AttributeError "function" "set_tag")
  end.

(** [tracer.get_log_correlation_context()] *)
Definition get_log_correlation_context : M world dict :=
  fun w => (Ok (correlation_context w), w).

(** ** main.py: the middleware *)

(** Lines 47-54: the [if correlation_id:] block. *)
Definition attach_correlation_id (correlation_id : option string)
    (current_span : object) : M world unit :=
  if str_truthy correlation_id then
    let cid := default "" correlation_id in
    if truthy current_span then
      set_tag current_span "correlation_id" cid ;;
      log DEBUG ("Attached X-Correlation-ID '" +:+ cid +:+ "' to current span.")
        [] None
    else
      log WARNING
        ("Received X-Correlation-ID '" +:+ cid
           +:+ "' but no active span to attach to. "
           +:+ "This might indicate an issue with ddtrace instrumentation.")
        [] None
  else ret tt.

(** [process_request_and_log_context(request, call_next)] *)
Definition process_request_and_log_context (request : Request)
    (call_next : Request -> M world Response) : M world Response :=
  let correlation_id := headers_get request "X-Correlation-ID" in
  let current_span := tracer_current_span in
  attach_correlation_id correlation_id current_span ;;
  log_correlation_context <- get_log_correlation_context ;;
  log INFO "Request started"
    (dict_update
       [("path", VStr (url_path request)); ("method", VStr (method request))]
       log_correlation_context) None ;;
  response <- call_next request ;;
  log INFO "Request finished"
    (dict_update
       [("path", VStr (url_path request)); ("method", VStr (method request));
        ("status_code", VInt (status_code response))]
       log_correlation_context) None ;;
  ret response.

(** ** main.py: the routes *)

(** [read_root()] *)
Definition read_root : M world value :=
  log INFO "Handling root endpoint request." [] None ;;
  ret (VDict [("message", VStr "Hello from FastAPI, traced by Datadog!")]).

(** Lines 94-97: [log_extra]. *)
Definition log_extra (item_id : Z) (correlation_id : option string) : dict :=
  let log_extra := [("item_id_param", VInt item_id)] in
  if str_truthy correlation_id then
    dict_set "request_correlation_id" (VStr (default "" correlation_id)) log_extra
  else log_extra.

(** [read_item(item_id, request)], with the service call it makes on line 104
    as a parameter: [item_service] is a module-level object. *)
Definition read_item_with (service : Z -> value -> M world value)
    (item_id : Z) (request : Request) : M world value :=
  let correlation_id := headers_get request "X-Correlation-ID" in
  log INFO ("Received request for item ID: " +:+ str_int item_id)
    (log_extra item_id correlation_id) None ;;
  let item_data := VDict [("name", VStr ("Product " +:+ str_int item_id))] in
  try_except
    (processed_result <- service item_id item_data ;;
     log INFO ("Successfully processed item " +:+ str_int item_id)
       [("processed_result", processed_result)] None ;;
     ret processed_result)
    (fun e =>
       log ERROR
         ("Failed to process item " +:+ str_int item_id +:+ " in API route: "
            +:+ str_exn e)
         [("item_id_param", VInt item_id)] (Some e) ;;
       raise (HTTPException 500 (str_exn e))).

(** [read_item] as the application runs it, on [ItemService()]. *)
Definition read_item : Z -> Request -> M world value :=
  read_item_with process_item_data.

(** [simulate_error()] *)
Definition simulate_error : M world value :=
  log ERROR "Simulating an intentional error in the /error endpoint." [] None ;;
  raise (HTTPException 500 "An intentional server error occurred.").

(** ** The framework around the routes *)

(** The route FastAPI matched, with the path parameter already converted:
    [GET /], [GET /items/{item_id}], [GET /error]. *)
Inductive Route : Type :=
| RootRoute
| ItemRoute (item_id : Z)
| ErrorRoute.

Definition endpoint (r : Route) (request : Request) : M world value :=
  match r with
  | RootRoute => read_root
  | ItemRoute item_id => read_item item_id request
  | ErrorRoute => simulate_error
  end.

(** What FastAPI makes of an endpoint's outcome: a returned value is the JSON
    body of a 200; an [HTTPException] becomes its status with the body
    [{"detail": detail}]; any other exception goes on up the stack. *)
Definition fastapi_route (handler : M world value) : M world Response :=
  fun w =>
    match handler w with
    | (Ok v, w') => (Ok {| status_code := 200; body := v |}, w')
    | (Raise (HTTPException status detail), w') =>
        (Ok {| status_code := status;
               body := VDict [("detail", VStr detail)] |}, w')
    | (Raise e, w') => (Raise e, w')
    end.

(** The application: the middleware around the matched route. *)
Definition app (r : Route) (request : Request) : M world Response :=
  process_request_and_log_context request
    (fun req => fastapi_route (endpoint r req)).

(** Starlette's outermost [ServerErrorMiddleware]: an [Exception] that escapes
    the application is answered with a plain 500. *)
Definition serve (r : Route) (request : Request) : M world Response :=
  try_except (app r request)
    (fun _ => ret {| status_code := 500; body := VStr "Internal Server Error" |}).

(** ** logging_config.py: the logging module's state *)

Module Logging.

(** A handler object: its level and the [fmt] of its JsonFormatter, if
    [setFormatter] gave it one. *)
Record Handler : Type := {
  handler_level : Z;
  formatter : option string
}.

(** A logger object.  [lvl] is [Logger.level] (0 is NOTSET); [handlers] holds
    handler objects by identity, here their index in [created]. *)
Record Logger : Type := {
  lvl : Z;
  handlers : list nat;
  propagate : bool
}.

(** The module state: the root logger, [Logger.manager.loggerDict], and every
    handler object created so far. *)
Record logging : Type := {
  root : Logger;
  loggerDict : gmap string Logger;
  created : list Handler
}.

Inductive logger_ref : Type :=
| RootLogger
| NamedLogger (name : string).

(** A logger as [Logger.__init__] leaves it. *)
Definition new_logger : Logger :=
  {| lvl := 0; handlers := []; propagate := true |}.

Definition get_logger (st : logging) (r : logger_ref) : Logger :=
  match r with
  | RootLogger => root st
  | NamedLogger n => default new_logger (loggerDict st !! n)
  end.

Definition set_logger (st : logging) (r : logger_ref) (lg : Logger) : logging :=
  match r with
  | RootLogger =>
      {| root := lg; loggerDict := loggerDict st; created := created st |}
  | NamedLogger n =>
      {| root := root st; loggerDict := <[n := lg]> (loggerDict st);
         created := created st |}
  end.

(** The module as the interpreter starts it: a root logger at WARNING, no
    handlers, no other loggers. *)
Definition initial : logging :=
  {| root := {| lvl := 30; handlers := []; propagate := true |};
     loggerDict := ∅;
     created := [] |}.

(** [logging.getLogger(name)]: no name, or the root's name, is the root logger;
    otherwise the logger of that name, created on first use. *)
Definition getLogger (name : string) : M logging logger_ref :=
  fun st =>
    if String.eqb name "" || String.eqb name "root" then (Ok RootLogger, st)
    else
      match loggerDict st !! name with
      | Some _ => (Ok (NamedLogger name), st)
      | None => (Ok (NamedLogger name), set_logger st (NamedLogger name) new_logger)
      end.

(** [list.remove]: the first occurrence. *)
Fixpoint remove_first (h : nat) (l : list nat) : list nat :=
  match l with
  | [] => []
  | x :: rest => if Nat.eqb h x then rest else x :: remove_first h rest
  end.

(** [Logger.removeHandler]: [if hdlr in self.handlers: self.handlers.remove(hdlr)] *)
Definition removeHandler (r : logger_ref) (h : nat) : M logging unit :=
  fun st =>
    let lg := get_logger st r in
    (Ok tt, set_logger st r
       {| lvl := lvl lg; handlers := remove_first h (handlers lg);
          propagate := propagate lg |}).

(** [Logger.addHandler]: [if not (hdlr in self.handlers): self.handlers.append(hdlr)] *)
Definition addHandler (r : logger_ref) (h : nat) : M logging unit :=
  fun st =>
    let lg := get_logger st r in
    if existsb (Nat.eqb h) (handlers lg) then (Ok tt, st)
    else
      (Ok tt, set_logger st r
         {| lvl := lvl lg; handlers := handlers lg ++ [h];
            propagate := propagate lg |}).

(** [logging._nameToLevel] *)
Definition nameToLevel : list (string * Z) :=
  [("CRITICAL", 50); ("FATAL", 50); ("ERROR", 40); ("WARN", 30);
   ("WARNING", 30); ("INFO", 20); ("DEBUG", 10); ("NOTSET", 0)].

Definition level_of_name (name : string) : option Z :=
  snd <$> find (fun kv => String.eqb name (fst kv)) nameToLevel.

(** [logging._checkLevel] on a string. *)
Definition checkLevel (name : string) : M logging Z :=
  match level_of_name name with
  | Some n => ret n
  | None => raise (PyError "ValueError" ("Unknown level: '" +:+ name +:+ "'"))
  end.

Definition setLevel_int (r : logger_ref) (n : Z) : M logging unit :=
  fun st =>
    let lg := get_logger st r in
    (Ok tt, set_logger st r
       {| lvl := n; handlers := handlers lg; propagate := propagate lg |}).

(** [Logger.setLevel(name)] *)
Definition setLevel (r : logger_ref) (name : string) : M logging unit :=
  n <- checkLevel name ;;
  setLevel_int r n.

Definition with_created (st : logging) (hs : list Handler) : logging :=
  {| root := root st; loggerDict := loggerDict st; created := hs |}.

(** [logging.StreamHandler(sys.stdout)]: a new handler object, level NOTSET. *)
Definition StreamHandler : M logging nat :=
  fun st =>
    (Ok (length (created st)),
     with_created st
       (created st ++ [{| handler_level := 0; formatter := None |}])).

(** [Handler.setFormatter] *)
Definition setFormatter (h : nat) (fmt : string) : M logging unit :=
  fun st =>
    (Ok tt,
     with_created st
       (alter (fun hd => {| handler_level := handler_level hd;
                            formatter := Some fmt |}) h (created st))).

(** [for x in xs: f(x)] *)
Fixpoint for_each {A : Type} (xs : list A) (f : A -> M logging unit)
    : M logging unit :=
  match xs with
  | [] => ret tt
  | x :: rest => f x ;; for_each rest f
  end.

Definition upper_ascii (c : ascii) : ascii :=
  let n := nat_of_ascii c in
  if ((97 <=? n) && (n <=? 122))%nat then ascii_of_nat (n - 32) else c.

(** [str.upper] on ASCII text. *)
Fixpoint upper (s : string) : string :=
  match s with
  | EmptyString => EmptyString
  | String c rest => String (upper_ascii c) (upper rest)
  end.

(** [os.getenv(key, default)] *)
Definition getenv (environ : gmap string string) (key dflt : string) : string :=
  default dflt (environ !! key).

(** The [fmt] of line 39. *)
Definition fmt : string :=
  "%(levelname)s %(asctime)s %(name)s %(message)s %(lineno)d %(pathname)s".

(** [configure_logger()], reading the process environment [environ]. *)
Definition configure_logger (environ : gmap string string)
    : M logging logger_ref :=
  let LOG_LEVEL := upper (getenv environ "LOG_LEVEL" "INFO") in
  let LOGGER_NAME := getenv environ "DD_SERVICE" "my-fastapi-app" in
  root_logger <- getLogger "" ;;
  (fun st =>
     match handlers (get_logger st root_logger) with
     | [] => ret tt st
     | hs => for_each hs (removeHandler root_logger) st
     end) ;;
  setLevel_int root_logger 10 ;;
  logger <- getLogger LOGGER_NAME ;;
  setLevel logger LOG_LEVEL ;;
  let formatter := fmt in
  log_handler <- StreamHandler ;;
  setFormatter log_handler formatter ;;
  addHandler logger log_handler ;;
  ddtrace_logger <- getLogger "ddtrace" ;;
  setLevel ddtrace_logger LOG_LEVEL ;;
  addHandler ddtrace_logger log_handler ;;
  ret logger.

(** *** Delivering a record *)

(** Positions of ['.'] in [s], counted from [i]. *)
Fixpoint dots_from (i : nat) (s : string) : list nat :=
  match s with
  | EmptyString => []
  | String c rest =>
      if Ascii.eqb c "."%char then i :: dots_from (Datatypes.S i) rest
      else dots_from (Datatypes.S i) rest
  end.

(** [name.rfind(".", 0, stop)] *)
Definition rfind_dot (name : string) (stop : nat) : option nat :=
  last (List.filter (fun j => j <? stop)%nat (dots_from 0 name)).

(** The loop of [Manager._fixupParents]: [i = name.rfind(".")], and while
    [i > 0] the prefix [name[:i]] is looked up, then
    [i = name.rfind(".", 0, i - 1)]. *)
Fixpoint parent_names (fuel : nat) (name : string) (i : option nat)
    : list string :=
  match fuel, i with
  | Datatypes.S fuel', Some (Datatypes.S i') =>
      substring 0 (Datatypes.S i') name
        :: parent_names fuel' name (rfind_dot name i')
  | _, _ => []
  end.

(** The loggers a record passes on its way up from [r]: [r], then the loggers
    that exist among its dotted prefixes, nearest first, then the root.  This
    is the [parent] chain that [_fixupParents] and [_fixupChildren] maintain. *)
Definition chain (st : logging) (r : logger_ref) : list logger_ref :=
  match r with
  | RootLogger => [RootLogger]
  | NamedLogger name =>
      NamedLogger name
        :: map NamedLogger
             (List.filter (fun n => bool_decide (is_Some (loggerDict st !! n)))
                (parent_names (String.length name) name
                   (rfind_dot name (String.length name))))
        ++ [RootLogger]
  end.

(** [Logger.getEffectiveLevel]: the first level set on the way up. *)
Definition getEffectiveLevel (st : logging) (r : logger_ref) : Z :=
  default 0
    (head (List.filter (fun n => negb (n =? 0))
             (map (fun c => lvl (get_logger st c)) (chain st r)))).

(** The loggers whose handlers see the record: up the chain until one does not
    propagate. *)
Fixpoint propagated (st : logging) (c : list logger_ref) : list logger_ref :=
  match c with
  | [] => []
  | r :: rest =>
      if propagate (get_logger st r) then r :: propagated st rest else [r]
  end.

(** [Logger.callHandlers]: the handlers that handle a record of level [n]
    logged on [r], in order; each StreamHandler writes one line. *)
Definition callHandlers (st : logging) (r : logger_ref) (n : Z) : list nat :=
  List.filter
    (fun h => match created st !! h with
              | Some hd => handler_level hd <=? n
              | None => true
              end)
    (concat (map (fun c => handlers (get_logger st c)) (propagated st (chain st r)))).

(** [Logger.log(level, ...)] as far as output goes: the handlers that write
    the event, none when the level is not enabled. *)
Definition emit (st : logging) (r : logger_ref) (l : level) : list nat :=
  if getEffectiveLevel st r <=? levelno l then callHandlers st r (levelno l)
  else [].

End Logging.

(** ** logging_config.py: the JSON formatter of line 38 *)

Module JsonFormatter.

(** A LogRecord, as far as the formatter reads it: the logger's name, the
    level, the source place, [getMessage()], the text [formatTime] renders
    from the creation time, [formatException] of [exc_info] when the call
    gave one, and the attributes that came in through [extra]. *)
Record LogRecord : Type := {
  name : string;
  record_level : level;
  pathname : string;
  lineno : Z;
  message : string;
  asctime : string;
  exc_text : option string;
  extra : dict
}.

(** [Logger.makeRecord] for one call: [extra] may not overwrite an attribute
    of the record. *)
Definition makeRecord (name : string) (c : log_call) (pathname : string)
    (lineno : Z) (asctime : string) (formatException : exn -> string)
    : result LogRecord :=
  match find is_record_attr (map fst (call_extra c)) with
  | Some k => Raise (LogRecordKeyError k)
  | None =>
      Ok {| name := name; record_level := call_level c;
            pathname := pathname; lineno := lineno; message := call_msg c;
            asctime := asctime;
            exc_text := formatException <$> call_exc_info c;
            extra := call_extra c |}
  end.

(** [record.__dict__] when [add_fields] reads it: the attributes of the
    constructor, the extras, then [message] and [asctime], which [format]
    sets.  (Thread, process and timing attributes are left out; the format
    string of line 39 names none of them.) *)
Definition record_dict (r : LogRecord) : dict :=
  dict_set "asctime" (VStr (asctime r))
    (dict_set "message" (VStr (message r))
       (dict_update
          [("name", VStr (name r));
           ("levelname", VStr (levelname (record_level r)));
           ("levelno", VInt (levelno (record_level r)));
           ("pathname", VStr (pathname r));
           ("lineno", VInt (lineno r))]
          (extra r))).

(** Scanning for the pattern [%\((.+?)\)]. *)
Inductive scan : Type :=
| Outside
| Percent
| Inside (acc : string).

(** [re.findall] of that pattern: after ["%("] at least one character, then up
    to the first [")"]; a line break ends an attempt. *)
Fixpoint findall (st : scan) (s : string) : list string :=
  match s with
  | EmptyString => []
  | String c rest =>
      match st with
      | Outside =>
          findall (if Ascii.eqb c "%"%char then Percent else Outside) rest
      | Percent =>
          if Ascii.eqb c "("%char then findall (Inside "") rest
          else findall (if Ascii.eqb c "%"%char then Percent else Outside) rest
      | Inside acc =>
          if Ascii.eqb c (ascii_of_nat 10) then findall Outside rest
          else if Ascii.eqb c ")"%char && negb (String.eqb acc "")
          then acc :: findall Outside rest
          else findall (Inside (acc +:+ String c "")) rest
      end
  end.

(** [JsonFormatter.parse]: the names the format string asks for. *)
Definition parse (fmt : string) : list string := findall Outside fmt.

(** python-json-logger's [RESERVED_ATTRS]. *)
Definition RESERVED_ATTRS : list string :=
  ["args"; "asctime"; "created"; "exc_info"; "exc_text"; "filename";
   "funcName"; "levelname"; "levelno"; "lineno"; "module"; "msecs";
   "message"; "msg"; "name"; "pathname"; "process"; "processName";
   "relativeCreated"; "stack_info"; "thread"; "threadName"].

Definition starts_with_underscore (k : string) : bool :=
  match k with
  | String c _ => Ascii.eqb c "_"%char
  | EmptyString => false
  end.

(** [merge_record_extra(record, target, reserved)] *)
Definition merge_record_extra (record : dict) (target : dict)
    (reserved : list string) : dict :=
  fold_left
    (fun acc kv =>
       if negb (existsb (String.eqb (fst kv)) reserved)
          && negb (starts_with_underscore (fst kv))
       then dict_set (fst kv) (snd kv) acc
       else acc)
    record target.

(** [JsonFormatter.add_fields]: the required fields from the record, then
    [message_dict], then the record's other attributes. *)
Definition add_fields (required : list string) (r : LogRecord)
    (message_dict : dict) : dict :=
  let log_record :=
    fold_left
      (fun acc field =>
         dict_set field (default VNone (dict_lookup field (record_dict r))) acc)
      required [] in
  let log_record := dict_update log_record message_dict in
  merge_record_extra (record_dict r) log_record (required ++ RESERVED_ATTRS).

(** [JsonFormatter(fmt).format(record)] for a string message: the dict that
    [json.dumps] turns into the output line. *)
Definition format (fmt : string) (r : LogRecord) : value :=
  let message_dict :=
    match exc_text r with
    | Some text => [("exc_info", VStr text)]
    | None => []
    end in
  VDict (add_fields (parse fmt) r message_dict).

End JsonFormatter.

(** * Properties *)

(** ** Logging calls *)

(** A call whose [extra] overwrites no record attribute returns, whatever the
    logger's level, and is noted. *)
Lemma log_ok (l : level) (msg : string) (extra : dict) (exc : option exn)
    (w : world) :
  find is_record_attr (map fst extra) = None ->
  log l msg extra exc w
    = (Ok tt, with_logged w (logged w ++ [LogCall l msg extra exc])).
Proof.
  intros Hfree. unfold log. rewrite Hfree.
  destruct (isEnabledFor w l); reflexivity.
Qed.

Lemma log_extra_free (item_id : Z) (correlation_id : option string) :
  find is_record_attr (map fst (log_extra item_id correlation_id)) = None.
Proof.
  unfold log_extra. destruct (str_truthy correlation_id); reflexivity.
Qed.

Ltac step_log :=
  rewrite log_ok by (reflexivity || apply log_extra_free).

(** ** item_service.py *)

(** The [try] body on a dict: it returns the record and notes the debug call. *)
Lemma process_item_data_try_dict (item_id : Z) (payload : dict) (w : world) :
  process_item_data_try item_id (VDict payload) w
    = (let processed_data :=
         VDict [("id", VInt item_id);
                ("name", match dict_lookup "name" payload with
                         | Some n => n
                         | None => VStr ("Item " +:+ str_int item_id)
                         end);
                ("status", VStr "processed");
                ("original_data", VDict payload)] in
       (Ok processed_data,
        with_logged w
          (logged w ++
             [LogCall DEBUG
                ("ItemService: Successfully processed data for item ID: "
                   +:+ str_int item_id)
                [("processed_data", processed_data)] None]))).
Proof.
  unfold process_item_data_try, get_method, bind, ret. step_log. reflexivity.
Qed.







(** ** main.py: the routes *)

(** What [read_item] does on the application's own service: the four calls
    on the logger, and the item record as the body of a 200. *)
Lemma item_route_outcome (item_id : Z) (request : Request) (w : world) :
  fastapi_route (endpoint (ItemRoute item_id) request) w
    = (let record :=
         VDict [("id", VInt item_id);
                ("name", VStr ("Product " +:+ str_int item_id));
                ("status", VStr "processed");
                ("original_data",
                 VDict [("name", VStr ("Product " +:+ str_int item_id))])] in
       (Ok {| status_code := 200; body := record |},
        with_logged w
          (logged w ++
             [LogCall INFO ("Received request for item ID: " +:+ str_int item_id)
                (log_extra item_id (headers_get request "X-Correlation-ID"))
                None;
              LogCall INFO
                ("ItemService: Starting to process item ID: " +:+ str_int item_id)
                [("item_id", VInt item_id)] None;
              LogCall DEBUG
                ("ItemService: Successfully processed data for item ID: "
                   +:+ str_int item_id)
                [("processed_data", record)] None;
              LogCall INFO ("Successfully processed item " +:+ str_int item_id)
                [("processed_result", record)] None]))).
Proof.
  unfold fastapi_route, endpoint, read_item, read_item_with, bind, try_except.
  step_log.
  unfold process_item_data, bind, try_except. step_log.
  rewrite process_item_data_try_dict. cbn. step_log.
  unfold with_logged. cbn. rewrite <- !app_assoc. reflexivity.
Qed.


(** C6: when the item-processing call made by [read_item] raises an exception
    [e], the route logs an error call carrying [e] and answers 500 with
    [detail = str(e)]; and whatever was raised, the route never answers with
    another status. *)
Theorem read_item_fault_is_500 (service : Z -> value -> M world value)
    (item_id : Z) (request : Request) (w w1 : world) (e : exn) :
  service item_id
    (VDict [("name", VStr ("Product " +:+ str_int item_id))])
    (with_logged w
       (logged w ++
          [LogCall INFO ("Received request for item ID: " +:+ str_int item_id)
             (log_extra item_id (headers_get request "X-Correlation-ID"))
             None]))
    = (Raise e, w1) ->
  (is_Exception e = true ->
   fastapi_route (read_item_with service item_id request) w
     = (Ok {| status_code := 500;
              body := VDict [("detail", VStr (str_exn e))] |},
        with_logged w1
          (logged w1 ++
             [LogCall ERROR
                ("Failed to process item " +:+ str_int item_id
                   +:+ " in API route: " +:+ str_exn e)
                [("item_id_param", VInt item_id)] (Some e)])))
  /\ (forall response w',
        fastapi_route (read_item_with service item_id request) w
          = (Ok response, w') ->
        status_code response = 500).
Proof.
  intros Hraise.
  unfold fastapi_route, read_item_with, bind, try_except. step_log.
  rewrite Hraise. split.
  - intros ->. unfold raise. step_log. reflexivity.
  - intros response w'. destruct (is_Exception e) eqn:Hexc.
    + unfold raise. step_log. intros [= <- _]. reflexivity.
    + destruct e; discriminate.
Qed.

(** C6 at a service that raises [ValueError("boom")] for item 7. *)
Lemma read_item_fault_is_500_witness :
  (is_Exception (PyError "ValueError" "boom") = true ->
   fastapi_route
     (read_item_with (fun _ _ => raise (PyError "ValueError" "boom")) 7
        {| method := "GET"; url_path := "/items/7"; headers := [] |})
     (World 20 [] None [])
     = (Ok {| status_code := 500; body := VDict [("detail", VStr "boom")] |},
        World 20
          [LogCall INFO "Received request for item ID: 7"
             [("item_id_param", VInt 7)] None;
           LogCall ERROR "Failed to process item 7 in API route: boom"
             [("item_id_param", VInt 7)] (Some (PyError "ValueError" "boom"))]
          None []))
  /\ (forall response w',
        fastapi_route
          (read_item_with (fun _ _ => raise (PyError "ValueError" "boom")) 7
             {| method := "GET"; url_path := "/items/7"; headers := [] |})
          (World 20 [] None [])
          = (Ok response, w') ->
        status_code response = 500).
Proof.
  refine (read_item_fault_is_500
            (fun _ _ => raise (PyError "ValueError" "boom")) 7
            {| method := "GET"; url_path := "/items/7"; headers := [] |}
            (World 20 [] None [])
            (World 20
               [LogCall INFO "Received request for item ID: 7"
                  [("item_id_param", VInt 7)] None]
               None [])
            (PyError "ValueError" "boom") _).
  vm_compute. reflexivity.
Defined.


(** ** main.py: the middleware *)

Lemma lower_correlation_header :
  lower "X-Correlation-ID" = "x-correlation-id".
Proof. reflexivity. Qed.

(** With a non-empty correlation id the [if] block of lines 47-54 asks the
    bound method for [set_tag] and raises; it changes nothing. *)
Lemma attach_correlation_id_raises (c : ascii) (cid : string) (w : world) :
  attach_correlation_id (Some (String c cid)) tracer_current_span w
    = (Raise (AttributeError "function" "set_tag"), w).
Proof. reflexivity. Qed.

(** C1, on the code: a request that carries a non-empty [X-Correlation-ID]
    makes the middleware raise [AttributeError] before anything else happens.
    The state is as it was: an active span gets no tag, and without an active
    span no warning call is made; no response is returned. *)
Theorem correlation_id_is_never_attached (m p : string)
    (hs : list (string * string)) (c : ascii) (cid : string)
    (call_next : Request -> M world Response) (w : world) :
  let request :=
    {| method := m; url_path := p;
       headers := ("x-correlation-id", String c cid) :: hs |} in
  process_request_and_log_context request call_next w
    = (Raise (AttributeError "function" "set_tag"), w).
Proof.
  cbv zeta.
  unfold process_request_and_log_context, headers_get, bind. cbn.
  reflexivity.
Qed.

(** C7, on the code: for the same requests the downstream handler is never
    called (the middleware's outcome is the same for every [call_next]) and
    the server answers a plain 500 for every route. *)
Theorem correlation_id_short_circuits (m p : string)
    (hs : list (string * string)) (c : ascii) (cid : string) (r : Route)
    (w : world) :
  let request :=
    {| method := m; url_path := p;
       headers := ("x-correlation-id", String c cid) :: hs |} in
  (forall call_next call_next',
      process_request_and_log_context request call_next w
        = process_request_and_log_context request call_next' w)
  /\ serve r request w
       = (Ok {| status_code := 500; body := VStr "Internal Server Error" |}, w).
Proof.
  cbv zeta. split.
  - intros call_next call_next'.
    unfold process_request_and_log_context, headers_get, bind. cbn.
    reflexivity.
  - unfold serve, app, try_except, process_request_and_log_context,
      headers_get, bind. cbn. reflexivity.
Qed.

(** Keys of a dict after [dict_set]. *)
Lemma dict_set_keys (k : string) (v : value) (d : dict) (k' : string) :
  In k' (map fst (dict_set k v d)) -> k' = k \/ In k' (map fst d).
Proof.
  induction d as [| [k0 v0] d IH]; cbn.
  - intros [<- | []]. now left.
  - destruct (String.eqb k k0) eqn:Heq; cbn.
    + apply String.eqb_eq in Heq. subst k0. intros [<- | Hin]; auto.
    + intros [<- | Hin]; auto. destruct (IH Hin); auto.
Qed.

Lemma dict_update_keys (d other : dict) (k' : string) :
  In k' (map fst (dict_update d other)) ->
  In k' (map fst d) \/ In k' (map fst other).
Proof.
  unfold dict_update. revert d.
  induction other as [| [k v] other IH]; cbn; intros d Hin.
  - now left.
  - destruct (IH _ Hin) as [Hd | Ho]; auto.
    destruct (dict_set_keys _ _ _ _ Hd) as [-> | Hd']; auto.
Qed.

Lemma find_none_keys (ks : list string) :
  (forall k, In k ks -> is_record_attr k = false) ->
  find is_record_attr ks = None.
Proof.
  induction ks as [| k ks IH]; cbn; intros Hall; [reflexivity |].
  rewrite (Hall k) by now left. apply IH. intros k' Hk'. apply Hall. now right.
Qed.

(** The [extra] of the "Request started" and "Request finished" calls
    overwrites no record attribute when the tracer's context does not. *)
Lemma request_extra_free (base ctx : dict) :
  find is_record_attr (map fst base) = None ->
  find is_record_attr (map fst ctx) = None ->
  find is_record_attr (map fst (dict_update base ctx)) = None.
Proof.
  intros Hbase Hctx. apply find_none_keys. intros k Hk.
  destruct (is_record_attr k) eqn:Hattr; [| reflexivity]. exfalso.
  destruct (dict_update_keys _ _ _ Hk) as [Hin | Hin].
  - rewrite (find_none _ _ Hbase _ Hin) in Hattr. discriminate.
  - rewrite (find_none _ _ Hctx _ Hin) in Hattr. discriminate.
Qed.

(** Without a correlation id (no header, or an empty one) and with a tracer
    context that overwrites no record attribute, the middleware notes "Request
    started", calls the downstream handler once on the request it was given,
    and returns that handler's response after noting "Request finished"; an
    exception of the handler goes through as it is. *)
Lemma middleware_forwards_once (request : Request)
    (call_next : Request -> M world Response) (w : world) :
  str_truthy (headers_get request "X-Correlation-ID") = false ->
  find is_record_attr (map fst (correlation_context w)) = None ->
  process_request_and_log_context request call_next w
    = match
        call_next request
          (with_logged w
             (logged w ++
                [LogCall INFO "Request started"
                   (dict_update
                      [("path", VStr (url_path request));
                       ("method", VStr (method request))]
                      (correlation_context w)) None]))
      with
      | (Ok response, w2) =>
          (Ok response,
           with_logged w2
             (logged w2 ++
                [LogCall INFO "Request finished"
                   (dict_update
                      [("path", VStr (url_path request));
                       ("method", VStr (method request));
                       ("status_code", VInt (status_code response))]
                      (correlation_context w)) None]))
      | (Raise e, w2) => (Raise e, w2)
      end.
Proof.
  intros Hno Hctx.
  unfold process_request_and_log_context, attach_correlation_id.
  rewrite Hno. unfold bind, ret, get_log_correlation_context.
  rewrite log_ok by (apply request_extra_free; [reflexivity | exact Hctx]).
  destruct (call_next request _) as [[response | e] w2]; [| reflexivity].
  rewrite log_ok by (apply request_extra_free; [reflexivity | exact Hctx]).
  reflexivity.
Qed.

(** X4: end to end, for a request without a correlation id,
    [GET /items/{id}] is answered 200 with the item record. *)
Lemma serve_item_without_correlation_id (item_id : Z) (request : Request)
    (w : world) :
  str_truthy (headers_get request "X-Correlation-ID") = false ->
  find is_record_attr (map fst (correlation_context w)) = None ->
  fst (serve (ItemRoute item_id) request w)
    = Ok {| status_code := 200;
            body :=
              VDict [("id", VInt item_id);
                     ("name", VStr ("Product " +:+ str_int item_id));
                     ("status", VStr "processed");
                     ("original_data",
                      VDict [("name", VStr ("Product " +:+ str_int item_id))])] |}.
Proof.
  intros Hno Hctx. unfold serve, app, try_except.
  rewrite middleware_forwards_once by assumption.
  rewrite item_route_outcome. reflexivity.
Qed.

(** ** main.py: requests without a correlation id, and the routes' effects *)

(** X1: for a request without a correlation id (no header, or an empty
    value) and a tracer context that overwrites no record attribute, the
    middleware notes "Request started" and calls the downstream handler on
    the request it was given.  When the handler returns a response the
    middleware notes "Request finished" with that response's status code and
    returns the same response; when the handler raises, the exception leaves
    the middleware as it is and no "Request finished" is noted. *)
Theorem middleware_passes_through (request : Request)
    (call_next : Request -> M world Response) (w : world) :
  str_truthy (headers_get request "X-Correlation-ID") = false ->
  find is_record_attr (map fst (correlation_context w)) = None ->
  let started :=
    with_logged w
      (logged w ++
         [LogCall INFO "Request started"
            (dict_update
               [("path", VStr (url_path request));
                ("method", VStr (method request))]
               (correlation_context w)) None]) in
  (forall response w2,
      call_next request started = (Ok response, w2) ->
      process_request_and_log_context request call_next w
        = (Ok response,
           with_logged w2
             (logged w2 ++
                [LogCall INFO "Request finished"
                   (dict_update
                      [("path", VStr (url_path request));
                       ("method", VStr (method request));
                       ("status_code", VInt (status_code response))]
                      (correlation_context w)) None])))
  /\ (forall e w2,
        call_next request started = (Raise e, w2) ->
        process_request_and_log_context request call_next w = (Raise e, w2)).
Proof.
  intros Hno Hctx started.
  pose proof (middleware_forwards_once request call_next w Hno Hctx) as Hrun.
  fold started in Hrun. split.
  - intros response w2 Hnext. rewrite Hrun, Hnext. reflexivity.
  - intros e w2 Hnext. rewrite Hrun, Hnext. reflexivity.
Qed.

(** [middleware_passes_through] at a concrete input. *)
Lemma middleware_passes_through_witness :
  let request := {| method := "GET"; url_path := "/"; headers := [("x-correlation-id", "")] |} in
  let w := World 20 [] None [("dd.trace_id", VStr "7")] in
  let call_next := fun _ : Request =>
    @ret world Response {| status_code := 200; body := VNone |} in
  let started :=
    with_logged w
      (logged w ++
         [LogCall INFO "Request started"
            (dict_update
               [("path", VStr (url_path request));
                ("method", VStr (method request))]
               (correlation_context w)) None]) in
  (forall response w2,
      call_next request started = (Ok response, w2) ->
      process_request_and_log_context request call_next w
        = (Ok response,
           with_logged w2
             (logged w2 ++
                [LogCall INFO "Request finished"
                   (dict_update
                      [("path", VStr (url_path request));
                       ("method", VStr (method request));
                       ("status_code", VInt (status_code response))]
                      (correlation_context w)) None])))
  /\ (forall e w2,
        call_next request started = (Raise e, w2) ->
        process_request_and_log_context request call_next w = (Raise e, w2)).
Proof.
  refine (middleware_passes_through
            {| method := "GET"; url_path := "/"; headers := [("x-correlation-id", "")] |}
            (fun _ => ret {| status_code := 200; body := VNone |})
            (World 20 [] None [("dd.trace_id", VStr "7")]) _ _);
    vm_compute; reflexivity.
Defined.

(** X2: end to end, [GET /] without a correlation id is answered 200 with
    the greeting, and the logger sees exactly "Request started", "Handling
    root endpoint request." and "Request finished" with status code 200. *)
Theorem serve_root_without_correlation_id (request : Request) (w : world) :
  str_truthy (headers_get request "X-Correlation-ID") = false ->
  find is_record_attr (map fst (correlation_context w)) = None ->
  serve RootRoute request w
    = (Ok {| status_code := 200;
             body := VDict [("message",
                             VStr "Hello from FastAPI, traced by Datadog!")] |},
       with_logged w
         (logged w ++
            [LogCall INFO "Request started"
               (dict_update
                  [("path", VStr (url_path request));
                   ("method", VStr (method request))]
                  (correlation_context w)) None;
             LogCall INFO "Handling root endpoint request." [] None;
             LogCall INFO "Request finished"
               (dict_update
                  [("path", VStr (url_path request));
                   ("method", VStr (method request));
                   ("status_code", VInt 200)]
                  (correlation_context w)) None])).
Proof.
  intros Hno Hctx. unfold serve, app, try_except.
  rewrite middleware_forwards_once by assumption.
  unfold fastapi_route, endpoint, read_root, bind, ret. step_log.
  unfold with_logged. cbn. rewrite <- !app_assoc. reflexivity.
Qed.

(** [serve_root_without_correlation_id] at a concrete input. *)
Lemma serve_root_without_correlation_id_witness :
  serve RootRoute {| method := "GET"; url_path := "/"; headers := [] |}
    (World 20 [] None [])
    = (Ok {| status_code := 200;
             body := VDict [("message",
                             VStr "Hello from FastAPI, traced by Datadog!")] |},
       World 20
         [LogCall INFO "Request started"
            [("path", VStr "/"); ("method", VStr "GET")] None;
          LogCall INFO "Handling root endpoint request." [] None;
          LogCall INFO "Request finished"
            [("path", VStr "/"); ("method", VStr "GET");
             ("status_code", VInt 200)] None]
         None []).
Proof.
  refine (serve_root_without_correlation_id
            {| method := "GET"; url_path := "/"; headers := [] |}
            (World 20 [] None []) _ _);
    vm_compute; reflexivity.
Defined.

(** X3: end to end, [GET /error] without a correlation id is answered 500
    with the fixed detail; the [HTTPException] is turned into the response
    below the middleware, which still notes "Request finished", with status
    code 500. *)
Theorem serve_error_without_correlation_id (request : Request) (w : world) :
  str_truthy (headers_get request "X-Correlation-ID") = false ->
  find is_record_attr (map fst (correlation_context w)) = None ->
  serve ErrorRoute request w
    = (Ok {| status_code := 500;
             body := VDict [("detail",
                             VStr "An intentional server error occurred.")] |},
       with_logged w
         (logged w ++
            [LogCall INFO "Request started"
               (dict_update
                  [("path", VStr (url_path request));
                   ("method", VStr (method request))]
                  (correlation_context w)) None;
             LogCall ERROR
               "Simulating an intentional error in the /error endpoint."
               [] None;
             LogCall INFO "Request finished"
               (dict_update
                  [("path", VStr (url_path request));
                   ("method", VStr (method request));
                   ("status_code", VInt 500)]
                  (correlation_context w)) None])).
Proof.
  intros Hno Hctx. unfold serve, app, try_except.
  rewrite middleware_forwards_once by assumption.
  unfold fastapi_route, endpoint, simulate_error, bind, raise. step_log.
  unfold with_logged. cbn. rewrite <- !app_assoc. reflexivity.
Qed.

(** [serve_error_without_correlation_id] at a concrete input. *)
Lemma serve_error_without_correlation_id_witness :
  serve ErrorRoute {| method := "GET"; url_path := "/error"; headers := [] |}
    (World 20 [] None [])
    = (Ok {| status_code := 500;
             body := VDict [("detail",
                             VStr "An intentional server error occurred.")] |},
       World 20
         [LogCall INFO "Request started"
            [("path", VStr "/error"); ("method", VStr "GET")] None;
          LogCall ERROR
            "Simulating an intentional error in the /error endpoint." [] None;
          LogCall INFO "Request finished"
            [("path", VStr "/error"); ("method", VStr "GET");
             ("status_code", VInt 500)] None]
         None []).
Proof.
  refine (serve_error_without_correlation_id
            {| method := "GET"; url_path := "/error"; headers := [] |}
            (World 20 [] None []) _ _);
    vm_compute; reflexivity.
Defined.

(** X4 at [GET /items/5] with no headers. *)
Lemma serve_item_without_correlation_id_witness :
  fst (serve (ItemRoute 5)
         {| method := "GET"; url_path := "/items/5"; headers := [] |}
         (World 20 [] None []))
    = Ok {| status_code := 200;
            body :=
              VDict [("id", VInt 5); ("name", VStr "Product 5");
                     ("status", VStr "processed");
                     ("original_data", VDict [("name", VStr "Product 5")])] |}.
Proof.
  refine (serve_item_without_correlation_id 5
            {| method := "GET"; url_path := "/items/5"; headers := [] |}
            (World 20 [] None []) _ _);
    vm_compute; reflexivity.
Defined.

(** X5: the route [GET /items/{item_id}] makes four calls on the logger, in
    this order: "Received request", the service's start and success calls,
    and "Successfully processed item"; the last two carry the item record.
    The first carries [item_id_param] and, exactly when the request has a
    non-empty [X-Correlation-ID], that value under [request_correlation_id]. *)
Theorem read_item_log_trace (item_id : Z) (request : Request) (w : world) :
  exists received,
    logged (snd (fastapi_route (endpoint (ItemRoute item_id) request) w))
      = (logged w ++
          [received;
           LogCall INFO
             ("ItemService: Starting to process item ID: " +:+ str_int item_id)
             [("item_id", VInt item_id)] None;
           LogCall DEBUG
             ("ItemService: Successfully processed data for item ID: "
                +:+ str_int item_id)
             [("processed_data",
               VDict [("id", VInt item_id);
                      ("name", VStr ("Product " +:+ str_int item_id));
                      ("status", VStr "processed");
                      ("original_data",
                       VDict [("name", VStr ("Product " +:+ str_int item_id))])])]
             None;
           LogCall INFO ("Successfully processed item " +:+ str_int item_id)
             [("processed_result",
               VDict [("id", VInt item_id);
                      ("name", VStr ("Product " +:+ str_int item_id));
                      ("status", VStr "processed");
                      ("original_data",
                       VDict [("name", VStr ("Product " +:+ str_int item_id))])])]
             None])%list
    /\ call_level received = INFO
    /\ call_msg received = "Received request for item ID: " +:+ str_int item_id
    /\ call_exc_info received = None
    /\ dict_lookup "item_id_param" (call_extra received) = Some (VInt item_id)
    /\ dict_lookup "request_correlation_id" (call_extra received)
       = match headers_get request "X-Correlation-ID" with
         | Some (String c rest) => Some (VStr (String c rest))
         | _ => None
         end.
Proof.
  rewrite item_route_outcome. cbv zeta. eexists. split; [reflexivity |].
  cbn [call_level call_msg call_exc_info call_extra].
  repeat split.
  - unfold log_extra. destruct (str_truthy _); reflexivity.
  - unfold log_extra.
    destruct (headers_get request "X-Correlation-ID") as [[| c rest] |];
      reflexivity.
Qed.

(** X6: every route answers with a response, never with an exception, and
    all it does to the state is add calls to the log: the logger's level and
    the tracer's span and context are as they were. *)
Theorem routes_answer_and_only_log (r : Route) (request : Request) (w : world) :
  exists response calls,
    fastapi_route (endpoint r request) w
      = (Ok response, with_logged w (logged w ++ calls))
    /\ calls <> [].
Proof.
  destruct r as [| item_id |].
  - unfold fastapi_route, endpoint, read_root, bind, ret. step_log.
    do 2 eexists. split; [reflexivity | discriminate].
  - rewrite item_route_outcome. cbv zeta.
    do 2 eexists. split; [reflexivity | discriminate].
  - unfold fastapi_route, endpoint, simulate_error, bind, raise. step_log.
    do 2 eexists. split; [reflexivity | discriminate].
Qed.



(** X8: a [BaseException] outside [Exception] raised by the service call
    (a cancellation, say) passes through [read_item] and the route as it is:
    no error call is made and no 500 response is built. *)
Theorem read_item_lets_base_exceptions_through
    (service : Z -> value -> M world value) (item_id : Z) (request : Request)
    (w w1 : world) (e : exn) :
  service item_id
    (VDict [("name", VStr ("Product " +:+ str_int item_id))])
    (with_logged w
       (logged w ++
          [LogCall INFO ("Received request for item ID: " +:+ str_int item_id)
             (log_extra item_id (headers_get request "X-Correlation-ID"))
             None]))
    = (Raise e, w1) ->
  is_Exception e = false ->
  read_item_with service item_id request w = (Raise e, w1)
  /\ fastapi_route (read_item_with service item_id request) w = (Raise e, w1).
Proof.
  intros Hraise Hbase.
  assert (Hroute : read_item_with service item_id request w = (Raise e, w1)).
  { unfold read_item_with, bind, try_except. step_log.
    rewrite Hraise, Hbase. reflexivity. }
  split; [exact Hroute |].
  unfold fastapi_route. rewrite Hroute. destruct e; try discriminate.
  reflexivity.
Qed.

(** [read_item_lets_base_exceptions_through] at a concrete input. *)
Lemma read_item_lets_base_exceptions_through_witness :
  let service := fun (_ : Z) (_ : value) =>
    @raise world value (PyBaseError "CancelledError" "") in
  let request := {| method := "GET"; url_path := "/items/7"; headers := [] |} in
  let w1 := World 20
              [LogCall INFO "Received request for item ID: 7"
                 [("item_id_param", VInt 7)] None] None [] in
  read_item_with service 7 request (World 20 [] None [])
    = (Raise (PyBaseError "CancelledError" ""), w1)
  /\ fastapi_route (read_item_with service 7 request) (World 20 [] None [])
     = (Raise (PyBaseError "CancelledError" ""), w1).
Proof.
  refine (read_item_lets_base_exceptions_through
            (fun _ _ => raise (PyBaseError "CancelledError" "")) 7
            {| method := "GET"; url_path := "/items/7"; headers := [] |}
            (World 20 [] None [])
            (World 20
               [LogCall INFO "Received request for item ID: 7"
                  [("item_id_param", VInt 7)] None] None [])
            (PyBaseError "CancelledError" "") _ _);
    vm_compute; reflexivity.
Defined.

(** ** logging_config.py: configuring *)

Section Configure.
Import Logging.

Lemma remove_all (l : list nat) :
  fold_left (fun acc h => remove_first h acc) l l = [].
Proof.
  induction l as [| h l IH]; cbn; [reflexivity |].
  rewrite Nat.eqb_refl. exact IH.
Qed.

Lemma for_each_removeHandler_root (hs : list nat) (st : logging) :
  for_each hs (removeHandler RootLogger) st
    = (Ok tt,
       set_logger st RootLogger
         {| lvl := lvl (root st);
            handlers := fold_left (fun acc h => remove_first h acc) hs
                          (handlers (root st));
            propagate := propagate (root st) |}).
Proof.
  revert st. induction hs as [| h hs IH]; intros st; cbn.
  - unfold ret. destruct st as [[? ? ?] ? ?]; reflexivity.
  - unfold bind, removeHandler. cbn. rewrite IH. reflexivity.
Qed.

Lemma get_set_same st r lg : get_logger (set_logger st r lg) r = lg.
Proof. destruct r; cbn; [reflexivity |]. by rewrite lookup_insert_eq. Qed.

Lemma get_set_other st r r' lg :
  r <> r' -> get_logger (set_logger st r lg) r' = get_logger st r'.
Proof.
  intros Hne. destruct r, r'; cbn; try reflexivity; try congruence.
  rewrite lookup_insert_ne; [reflexivity | congruence].
Qed.

Lemma created_set_logger st r lg : created (set_logger st r lg) = created st.
Proof. destruct r; reflexivity. Qed.

Lemma clear_root (st : logging) :
  match handlers (get_logger st RootLogger) with
  | [] => ret tt st
  | hs => for_each hs (removeHandler RootLogger) st
  end
  = (Ok tt,
     set_logger st RootLogger
       {| lvl := lvl (root st); handlers := [];
          propagate := propagate (root st) |}).
Proof.
  change (get_logger st RootLogger) with (root st).
  destruct (handlers (root st)) as [| h hs] eqn:Hhs.
  - unfold ret. destruct st as [[? ? ?] ? ?]. cbn in *. subst. reflexivity.
  - rewrite for_each_removeHandler_root, Hhs, remove_all. reflexivity.
Qed.

Lemma getLogger_named (name : string) (st : logging) :
  name <> "" -> name <> "root" ->
  exists st',
    getLogger name st = (Ok (NamedLogger name), st')
    /\ (forall r, get_logger st' r = get_logger st r)
    /\ created st' = created st.
Proof.
  intros Hne Hnr. unfold getLogger.
  apply String.eqb_neq in Hne, Hnr. rewrite Hne, Hnr. cbn [orb].
  destruct (loggerDict st !! name) eqn:Hlook.
  - eexists; repeat split; reflexivity.
  - eexists; split; [reflexivity |]. split; [| reflexivity].
    intros [| other]; [reflexivity |].
    destruct (decide (other = name)) as [-> | Hother].
    + rewrite get_set_same. cbn. by rewrite Hlook.
    + rewrite get_set_other; [reflexivity | congruence].
Qed.

Lemma existsb_eqb_false (n : nat) (l : list nat) :
  ~ In n l -> existsb (Nat.eqb n) l = false.
Proof.
  intros Hn. destruct (existsb (Nat.eqb n) l) eqn:Hex; [| reflexivity].
  apply existsb_exists in Hex. destruct Hex as (x & Hx & Heq).
  apply Nat.eqb_eq in Heq. subst. contradiction.
Qed.

Lemma get_with_created st hs r : get_logger (with_created st hs) r = get_logger st r.
Proof. destruct r; reflexivity. Qed.

Lemma created_with_created st hs : created (with_created st hs) = hs.
Proof. reflexivity. Qed.

Lemma setLevel_named (r : logger_ref) (name : string) (L : Z) (st : logging) :
  level_of_name name = Some L ->
  setLevel r name st
    = (Ok tt,
       set_logger st r
         {| lvl := L; handlers := handlers (get_logger st r);
            propagate := propagate (get_logger st r) |}).
Proof.
  intros HL. unfold setLevel, bind, checkLevel. rewrite HL. reflexivity.
Qed.

Lemma addHandler_fresh (r : logger_ref) (h : nat) (st : logging) :
  ~ In h (handlers (get_logger st r)) ->
  addHandler r h st
    = (Ok tt,
       set_logger st r
         {| lvl := lvl (get_logger st r);
            handlers := (handlers (get_logger st r) ++ [h])%list;
            propagate := propagate (get_logger st r) |}).
Proof.
  intros Hfresh. unfold addHandler. rewrite existsb_eqb_false by assumption.
  reflexivity.
Qed.

Lemma alter_last (f : Handler -> Handler) (l : list Handler) (x : Handler) :
  alter f (length l) (l ++ [x])%list = (l ++ [f x])%list.
Proof. induction l as [| y l IH]; cbn; [reflexivity | by rewrite IH]. Qed.

Lemma configure_logger_once (environ : gmap string string) (st : logging) (L : Z) :
  let LOG_LEVEL := upper (getenv environ "LOG_LEVEL" "INFO") in
  let LOGGER_NAME := getenv environ "DD_SERVICE" "my-fastapi-app" in
  let n := length (created st) in
  level_of_name LOG_LEVEL = Some L ->
  LOGGER_NAME <> "" -> LOGGER_NAME <> "root" -> LOGGER_NAME <> "ddtrace" ->
  ~ In n (handlers (get_logger st (NamedLogger LOGGER_NAME))) ->
  ~ In n (handlers (get_logger st (NamedLogger "ddtrace"))) ->
  exists st',
    configure_logger environ st = (Ok (NamedLogger LOGGER_NAME), st')
    /\ get_logger st' RootLogger
       = {| lvl := 10; handlers := []; propagate := propagate (root st) |}
    /\ get_logger st' (NamedLogger LOGGER_NAME)
       = {| lvl := L;
            handlers := (handlers (get_logger st (NamedLogger LOGGER_NAME)) ++ [n])%list;
            propagate := propagate (get_logger st (NamedLogger LOGGER_NAME)) |}
    /\ get_logger st' (NamedLogger "ddtrace")
       = {| lvl := L;
            handlers := (handlers (get_logger st (NamedLogger "ddtrace")) ++ [n])%list;
            propagate := propagate (get_logger st (NamedLogger "ddtrace")) |}
    /\ (forall other, other <> LOGGER_NAME -> other <> "ddtrace" ->
        get_logger st' (NamedLogger other) = get_logger st (NamedLogger other))
    /\ created st'
       = (created st ++ [{| handler_level := 0; formatter := Some fmt |}])%list.
Proof.
  intros LOG_LEVEL LOGGER_NAME n HL Hne Hnr Hnd Hfresh Hfreshd.
  assert (Hroot : RootLogger <> NamedLogger LOGGER_NAME) by discriminate.
  assert (Hrootd : RootLogger <> NamedLogger "ddtrace") by discriminate.
  assert (Hnamed : NamedLogger LOGGER_NAME <> NamedLogger "ddtrace") by congruence.
  unfold configure_logger. fold LOG_LEVEL. fold LOGGER_NAME.
  unfold bind at 1. cbn [getLogger String.eqb orb].
  unfold bind at 1. rewrite clear_root.
  unfold bind at 1. unfold setLevel_int at 1.
  set (s1 := set_logger (set_logger st RootLogger _) RootLogger _).
  unfold bind at 1.
  destruct (getLogger_named LOGGER_NAME s1 Hne Hnr) as (s2 & -> & Hv2 & Hc2).
  unfold bind at 1. rewrite (setLevel_named _ _ L) by assumption.
  set (s3 := set_logger s2 _ _).
  unfold bind at 1. unfold StreamHandler at 1.
  set (s4 := with_created s3 _).
  unfold bind at 1. unfold setFormatter at 1.
  set (s5 := with_created s4 _).
  assert (Hn : length (created s3) = n).
  { subst s3 s1. rewrite created_set_logger, Hc2, !created_set_logger. reflexivity. }
  assert (Hc5 : created s5
                = (created st ++ [{| handler_level := 0; formatter := Some fmt |}])%list).
  { subst s5 s4. rewrite !created_with_created.
    assert (Hc3 : created s3 = created st).
    { subst s3 s1. rewrite created_set_logger, Hc2, !created_set_logger. reflexivity. }
    rewrite Hc3. rewrite alter_last. reflexivity. }
  rewrite Hn.
  assert (Hg5 : get_logger s5 (NamedLogger LOGGER_NAME)
                = {| lvl := L;
                     handlers := handlers (get_logger st (NamedLogger LOGGER_NAME));
                     propagate := propagate (get_logger st (NamedLogger LOGGER_NAME)) |}).
  { subst s5 s4 s3. rewrite !get_with_created, get_set_same, Hv2. subst s1.
    rewrite !get_set_other by congruence. reflexivity. }
  unfold bind at 1. rewrite addHandler_fresh by (rewrite Hg5; exact Hfresh).
  rewrite Hg5. cbn [lvl handlers propagate].
  set (s6 := set_logger s5 _ _).
  unfold bind at 1.
  destruct (getLogger_named "ddtrace" s6) as (s7 & -> & Hv7 & Hc7);
    [discriminate | discriminate |].
  assert (Hg6 : get_logger s6 (NamedLogger "ddtrace")
                = get_logger st (NamedLogger "ddtrace")).
  { subst s6 s5 s4 s3. rewrite get_set_other by congruence.
    rewrite !get_with_created, get_set_other by congruence.
    rewrite Hv2. subst s1. rewrite !get_set_other by congruence. reflexivity. }
  unfold bind at 1. rewrite (setLevel_named _ _ L) by assumption.
  rewrite Hv7, Hg6.
  set (s8 := set_logger s7 _ _).
  unfold bind at 1. rewrite addHandler_fresh;
    subst s8; rewrite get_set_same; cbn [lvl handlers propagate];
    [| exact Hfreshd].
  unfold ret. eexists. split; [reflexivity |].
  repeat split.
  - rewrite !get_set_other by congruence. rewrite Hv7. subst s6.
    rewrite get_set_other by congruence. subst s5 s4 s3.
    rewrite !get_with_created, get_set_other by congruence. rewrite Hv2.
    subst s1. rewrite get_set_same. cbn. reflexivity.
  - rewrite !get_set_other by congruence. rewrite Hv7. subst s6.
    rewrite get_set_same. reflexivity.
  - rewrite get_set_same. reflexivity.
  - intros other Ho Hod.
    rewrite !get_set_other by congruence. rewrite Hv7. subst s6.
    rewrite get_set_other by congruence. subst s5 s4 s3.
    rewrite !get_with_created, get_set_other by congruence. rewrite Hv2.
    subst s1. rewrite !get_set_other by congruence. reflexivity.
  - rewrite !created_set_logger, Hc7. subst s6. rewrite created_set_logger.
    exact Hc5.
Qed.

(** A handler on a named logger handles every record the logger passes on,
    when the handler's own level lets it. *)
Lemma callHandlers_own (st : logging) (name : string) (n : Z) (h : nat)
    (hd : Handler) :
  In h (handlers (get_logger st (NamedLogger name))) ->
  created st !! h = Some hd ->
  handler_level hd <= n ->
  In h (callHandlers st (NamedLogger name) n).
Proof.
  intros Hin Hcreated Hlevel. unfold callHandlers.
  apply filter_In. split.
  - unfold chain. cbn [propagated].
    destruct (propagate (get_logger st (NamedLogger name)));
      cbn [map concat]; apply in_or_app; left; exact Hin.
  - rewrite Hcreated. apply Z.leb_le. exact Hlevel.
Qed.

(** C2, amended: a second run of [configure_logger] clears the root logger
    only.  With a valid level name and a logger name of its own, the
    application logger and the ddtrace logger keep the handler of the first
    run and get the handler of the second: two handlers each, and every
    event the application logger accepts is written by both. *)
Theorem configure_logger_twice_keeps_both_handlers
    (environ : gmap string string) (st : logging) (L : Z) :
  let LOG_LEVEL := upper (getenv environ "LOG_LEVEL" "INFO") in
  let LOGGER_NAME := getenv environ "DD_SERVICE" "my-fastapi-app" in
  let n := length (created st) in
  level_of_name LOG_LEVEL = Some L ->
  LOGGER_NAME <> "" /\ LOGGER_NAME <> "root" /\ LOGGER_NAME <> "ddtrace" ->
  (forall h, In h (handlers (get_logger st (NamedLogger LOGGER_NAME))) ->
             (h < n)%nat) ->
  (forall h, In h (handlers (get_logger st (NamedLogger "ddtrace"))) ->
             (h < n)%nat) ->
  exists st1 st2,
    configure_logger environ st = (Ok (NamedLogger LOGGER_NAME), st1)
    /\ configure_logger environ st1 = (Ok (NamedLogger LOGGER_NAME), st2)
    /\ handlers (get_logger st2 RootLogger) = []
    /\ handlers (get_logger st2 (NamedLogger LOGGER_NAME))
       = (handlers (get_logger st (NamedLogger LOGGER_NAME)) ++ [n; S n])%list
    /\ handlers (get_logger st2 (NamedLogger "ddtrace"))
       = (handlers (get_logger st (NamedLogger "ddtrace")) ++ [n; S n])%list
    /\ (forall l,
          getEffectiveLevel st2 (NamedLogger LOGGER_NAME) <= levelno l ->
          In n (emit st2 (NamedLogger LOGGER_NAME) l)
          /\ In (S n) (emit st2 (NamedLogger LOGGER_NAME) l)).
Proof.
  intros LOG_LEVEL LOGGER_NAME n HL (Hne & Hnr & Hnd) Hold Holdd.
  destruct (configure_logger_once environ st L HL Hne Hnr Hnd)
    as (st1 & Hrun1 & Hroot1 & Happ1 & Hdd1 & _ & Hc1).
  { intros Hin. apply Hold in Hin. fold n in Hin. lia. }
  { intros Hin. apply Holdd in Hin. fold n in Hin. lia. }
  fold LOGGER_NAME in Hrun1, Happ1. fold n in Happ1, Hdd1.
  assert (Hlen1 : length (created st1) = S n).
  { rewrite Hc1, length_app. cbn. fold n. lia. }
  destruct (configure_logger_once environ st1 L HL Hne Hnr Hnd)
    as (st2 & Hrun2 & Hroot2 & Happ2 & Hdd2 & _ & Hc2).
  { fold LOGGER_NAME. rewrite Happ1, Hlen1. cbn [handlers].
    intros Hin. apply in_app_or in Hin. destruct Hin as [Hin | [Hin | []]].
    - apply Hold in Hin. lia.
    - lia. }
  { rewrite Hdd1, Hlen1. cbn [handlers].
    intros Hin. apply in_app_or in Hin. destruct Hin as [Hin | [Hin | []]].
    - apply Holdd in Hin. lia.
    - lia. }
  fold LOGGER_NAME in Hrun2, Happ2.
  rewrite Hlen1 in Happ2, Hdd2. rewrite Happ1 in Happ2. rewrite Hdd1 in Hdd2.
  cbn [handlers propagate] in Happ2, Hdd2.
  exists st1, st2. split; [exact Hrun1 |]. split; [exact Hrun2 |].
  split; [rewrite Hroot2; reflexivity |].
  split; [rewrite Happ2; cbn [handlers]; rewrite <- app_assoc; reflexivity |].
  split; [rewrite Hdd2; cbn [handlers]; rewrite <- app_assoc; reflexivity |].
  intros l Hlevel. unfold emit.
  apply Z.leb_le in Hlevel. rewrite Hlevel.
  assert (Hcreated : created st2
                     = (created st ++ [{| handler_level := 0; formatter := Some fmt |};
                                       {| handler_level := 0; formatter := Some fmt |}])%list).
  { rewrite Hc2, Hc1, <- app_assoc. reflexivity. }
  split.
  - apply callHandlers_own with (hd := {| handler_level := 0; formatter := Some fmt |}).
    + rewrite Happ2. cbn [handlers]. apply in_or_app. left. apply in_or_app.
      right. now left.
    + rewrite Hcreated. rewrite lookup_app_r by (fold n; lia).
      fold n. replace (n - n)%nat with 0%nat by lia. reflexivity.
    + cbn. destruct l; cbn; lia.
  - apply callHandlers_own with (hd := {| handler_level := 0; formatter := Some fmt |}).
    + rewrite Happ2. cbn [handlers]. apply in_or_app. right. now left.
    + rewrite Hcreated. rewrite lookup_app_r by (fold n; lia).
      fold n. replace (S n - n)%nat with 1%nat by lia. reflexivity.
    + cbn. destruct l; cbn; lia.
Qed.

(** C2, amended, at the default environment in a fresh interpreter. *)
Lemma configure_logger_twice_keeps_both_handlers_witness :
  exists st1 st2,
    configure_logger ∅ initial = (Ok (NamedLogger "my-fastapi-app"), st1)
    /\ configure_logger ∅ st1 = (Ok (NamedLogger "my-fastapi-app"), st2)
    /\ handlers (get_logger st2 RootLogger) = []
    /\ handlers (get_logger st2 (NamedLogger "my-fastapi-app"))
       = [0%nat; 1%nat]
    /\ handlers (get_logger st2 (NamedLogger "ddtrace")) = [0%nat; 1%nat]
    /\ (forall l,
          getEffectiveLevel st2 (NamedLogger "my-fastapi-app") <= levelno l ->
          In 0%nat (emit st2 (NamedLogger "my-fastapi-app") l)
          /\ In 1%nat (emit st2 (NamedLogger "my-fastapi-app") l)).
Proof.
  refine (configure_logger_twice_keeps_both_handlers ∅ initial 20 _ _ _ _).
  - reflexivity.
  - repeat split; discriminate.
  - intros h [].
  - intros h [].
Defined.

(** C2 as stated fails: in a fresh interpreter with the default environment,
    after the second run the application logger holds the handlers of both
    runs, and an INFO event is written twice, not once. *)
Lemma configure_logger_twice_duplicates :
  let app_logger := NamedLogger "my-fastapi-app" in
  let st1 := snd (configure_logger ∅ initial) in
  let st2 := snd (configure_logger ∅ st1) in
  emit st1 app_logger INFO = [0%nat]
  /\ emit st2 app_logger INFO = [0%nat; 1%nat]
  /\ handlers (get_logger st2 app_logger) = [0%nat; 1%nat]
  /\ length (emit st2 app_logger INFO) <> 1%nat.
Proof.
  cbv zeta. repeat split; try (vm_compute; reflexivity).
  vm_compute. discriminate.
Qed.

(** *** One run, and its edge cases *)

(** [getLogger] never changes what [get_logger] sees. *)
Lemma getLogger_view (name : string) (st : logging) :
  exists st',
    getLogger name st
      = (Ok (if String.eqb name "" || String.eqb name "root"
             then RootLogger else NamedLogger name), st')
    /\ (forall r, get_logger st' r = get_logger st r)
    /\ created st' = created st.
Proof.
  unfold getLogger.
  destruct (String.eqb name "" || String.eqb name "root") eqn:Hroot.
  - eexists; repeat split; reflexivity.
  - destruct (loggerDict st !! name) eqn:Hlook.
    + eexists; repeat split; reflexivity.
    + eexists; split; [reflexivity |]. split; [| reflexivity].
      intros [| other]; [reflexivity |].
      destruct (decide (other = name)) as [-> | Hother].
      * rewrite get_set_same. cbn. by rewrite Hlook.
      * rewrite get_set_other; [reflexivity | congruence].
Qed.

(** X9: one run of [configure_logger], with a valid level name and a logger
    name of its own, leaves the root logger at DEBUG with no handlers, sets
    the level on the application logger and on the ddtrace logger and appends
    to both the same new handler, which carries the JSON formatter; every
    other logger is as it was. *)
Theorem configure_logger_single_run (environ : gmap string string)
    (st : logging) (L : Z) :
  let LOG_LEVEL := upper (getenv environ "LOG_LEVEL" "INFO") in
  let LOGGER_NAME := getenv environ "DD_SERVICE" "my-fastapi-app" in
  let n := length (created st) in
  level_of_name LOG_LEVEL = Some L ->
  LOGGER_NAME <> "" /\ LOGGER_NAME <> "root" /\ LOGGER_NAME <> "ddtrace" ->
  (forall h, In h (handlers (get_logger st (NamedLogger LOGGER_NAME))) ->
             (h < n)%nat) ->
  (forall h, In h (handlers (get_logger st (NamedLogger "ddtrace"))) ->
             (h < n)%nat) ->
  exists st',
    configure_logger environ st = (Ok (NamedLogger LOGGER_NAME), st')
    /\ get_logger st' RootLogger
       = {| lvl := 10; handlers := []; propagate := propagate (root st) |}
    /\ get_logger st' (NamedLogger LOGGER_NAME)
       = {| lvl := L;
            handlers :=
              (handlers (get_logger st (NamedLogger LOGGER_NAME)) ++ [n])%list;
            propagate := propagate (get_logger st (NamedLogger LOGGER_NAME)) |}
    /\ get_logger st' (NamedLogger "ddtrace")
       = {| lvl := L;
            handlers :=
              (handlers (get_logger st (NamedLogger "ddtrace")) ++ [n])%list;
            propagate := propagate (get_logger st (NamedLogger "ddtrace")) |}
    /\ (forall other, other <> LOGGER_NAME -> other <> "ddtrace" ->
        get_logger st' (NamedLogger other) = get_logger st (NamedLogger other))
    /\ created st' !! n = Some {| handler_level := 0; formatter := Some fmt |}
    /\ length (created st') = S n.
Proof.
  intros LOG_LEVEL LOGGER_NAME n HL (Hne & Hnr & Hnd) Hold Holdd.
  destruct (configure_logger_once environ st L HL Hne Hnr Hnd)
    as (st1 & Hrun & Hroot & Happ & Hdd & Hother & Hc).
  { intros Hin. apply Hold in Hin. fold n in Hin. lia. }
  { intros Hin. apply Holdd in Hin. fold n in Hin. lia. }
  exists st1. repeat split; try assumption.
  - rewrite Hc. rewrite lookup_app_r by (fold n; lia).
    fold n. replace (n - n)%nat with 0%nat by lia. reflexivity.
  - rewrite Hc, length_app. cbn. fold n. lia.
Qed.

(** [configure_logger_single_run] at a concrete input. *)
Lemma configure_logger_single_run_witness :
  exists st',
    configure_logger ∅ initial = (Ok (NamedLogger "my-fastapi-app"), st')
    /\ get_logger st' RootLogger
       = {| lvl := 10; handlers := []; propagate := true |}
    /\ get_logger st' (NamedLogger "my-fastapi-app")
       = {| lvl := 20; handlers := [0%nat]; propagate := true |}
    /\ get_logger st' (NamedLogger "ddtrace")
       = {| lvl := 20; handlers := [0%nat]; propagate := true |}
    /\ (forall other, other <> "my-fastapi-app" -> other <> "ddtrace" ->
        get_logger st' (NamedLogger other)
          = get_logger initial (NamedLogger other))
    /\ created st' !! 0%nat
       = Some {| handler_level := 0; formatter := Some fmt |}
    /\ length (created st') = 1%nat.
Proof.
  refine (configure_logger_single_run ∅ initial 20 _ _ _ _).
  - reflexivity.
  - repeat split; discriminate.
  - intros h [].
  - intros h [].
Defined.


(** A name without a dot has no parent but the root. *)
Lemma chain_without_dots (st : logging) (name : string) :
  dots_from 0 name = [] ->
  chain st (NamedLogger name) = [NamedLogger name; RootLogger].
Proof.
  intros Hdots. unfold chain, rfind_dot. rewrite Hdots. cbn.
  destruct (String.length name); reflexivity.
Qed.

(** X11: after one run on an application logger that had no handler and
    whose name has no dot, an event logged on it is written by the new
    handler alone, once, whatever handlers the root logger had before; an
    event below the configured level is not written at all (NOTSET falls back
    to the root's DEBUG). *)
Theorem configured_logger_writes_once (environ : gmap string string)
    (st : logging) (L : Z) :
  let LOG_LEVEL := upper (getenv environ "LOG_LEVEL" "INFO") in
  let LOGGER_NAME := getenv environ "DD_SERVICE" "my-fastapi-app" in
  let n := length (created st) in
  level_of_name LOG_LEVEL = Some L ->
  LOGGER_NAME <> "" /\ LOGGER_NAME <> "root" /\ LOGGER_NAME <> "ddtrace" ->
  dots_from 0 LOGGER_NAME = [] ->
  handlers (get_logger st (NamedLogger LOGGER_NAME)) = [] ->
  (forall h, In h (handlers (get_logger st (NamedLogger "ddtrace"))) ->
             (h < n)%nat) ->
  exists st',
    configure_logger environ st = (Ok (NamedLogger LOGGER_NAME), st')
    /\ forall l,
         emit st' (NamedLogger LOGGER_NAME) l
           = if (if L =? 0 then 10 else L) <=? levelno l then [n] else [].
Proof.
  intros LOG_LEVEL LOGGER_NAME n HL (Hne & Hnr & Hnd) Hdots Hnone Holdd.
  destruct (configure_logger_once environ st L HL Hne Hnr Hnd)
    as (st1 & Hrun & Hroot & Happ & _ & _ & Hc).
  { fold LOGGER_NAME. rewrite Hnone. intros []. }
  { intros Hin. apply Holdd in Hin. fold n in Hin. lia. }
  fold LOGGER_NAME in Hrun, Happ. fold n in Happ. rewrite Hnone in Happ.
  exists st1. split; [exact Hrun |]. intros l.
  assert (Hcreated : created st1 !! n
                     = Some {| handler_level := 0; formatter := Some fmt |}).
  { rewrite Hc. rewrite lookup_app_r by (fold n; lia).
    fold n. replace (n - n)%nat with 0%nat by lia. reflexivity. }
  unfold emit, getEffectiveLevel, callHandlers.
  rewrite chain_without_dots by exact Hdots.
  cbn [map propagated]. rewrite Happ, Hroot. cbn [lvl handlers propagate].
  assert (Hwritten :
    List.filter
      (fun h => match created st1 !! h with
                | Some hd => handler_level hd <=? levelno l
                | None => true
                end)
      (concat
         (map (fun c => handlers (get_logger st1 c))
            (if propagate (get_logger st (NamedLogger LOGGER_NAME))
             then NamedLogger LOGGER_NAME
                    :: (if propagate (root st) then [RootLogger]
                        else [RootLogger])
             else [NamedLogger LOGGER_NAME])))
    = [n]).
  { destruct (propagate (get_logger st (NamedLogger LOGGER_NAME)));
      [destruct (propagate (root st)) |];
      cbn [map concat]; rewrite ?Happ, ?Hroot; cbn [handlers Datatypes.app List.filter];
      rewrite Hcreated; cbn [handler_level];
      destruct l; reflexivity. }
  rewrite Hwritten.
  destruct (L =? 0) eqn:HL0; cbn [List.filter negb head default]; rewrite ?HL0;
    reflexivity.
Qed.

(** [configured_logger_writes_once] at a concrete input. *)
Lemma configured_logger_writes_once_witness :
  exists st',
    configure_logger ∅
      {| root := {| lvl := 30; handlers := [0%nat]; propagate := true |};
         loggerDict := ∅;
         created := [{| handler_level := 0; formatter := None |}] |}
      = (Ok (NamedLogger "my-fastapi-app"), st')
    /\ forall l,
         emit st' (NamedLogger "my-fastapi-app") l
           = if (if 20 =? 0 then 10 else 20) <=? levelno l then [1%nat] else [].
Proof.
  refine (configured_logger_writes_once ∅
            {| root := {| lvl := 30; handlers := [0%nat]; propagate := true |};
               loggerDict := ∅;
               created := [{| handler_level := 0; formatter := None |}] |}
            20 _ _ _ _ _).
  - reflexivity.
  - repeat split; discriminate.
  - reflexivity.
  - reflexivity.
  - intros h [].
Defined.
(** X12: when [DD_SERVICE] is empty or "root", the logger that
    [configure_logger] returns is the root logger: it ends at the configured
    level, not at DEBUG, and holds the new handler.  The ddtrace logger holds
    the same handler, so an event of a ddtrace logger that propagates is
    written twice. *)
Theorem configure_logger_root_name (environ : gmap string string)
    (st : logging) (L : Z) :
  let LOG_LEVEL := upper (getenv environ "LOG_LEVEL" "INFO") in
  let LOGGER_NAME := getenv environ "DD_SERVICE" "my-fastapi-app" in
  let n := length (created st) in
  level_of_name LOG_LEVEL = Some L ->
  LOGGER_NAME = "" \/ LOGGER_NAME = "root" ->
  (forall h, In h (handlers (get_logger st (NamedLogger "ddtrace"))) ->
             (h < n)%nat) ->
  exists st',
    configure_logger environ st = (Ok RootLogger, st')
    /\ get_logger st' RootLogger
       = {| lvl := L; handlers := [n]; propagate := propagate (root st) |}
    /\ get_logger st' (NamedLogger "ddtrace")
       = {| lvl := L;
            handlers :=
              (handlers (get_logger st (NamedLogger "ddtrace")) ++ [n])%list;
            propagate := propagate (get_logger st (NamedLogger "ddtrace")) |}
    /\ (handlers (get_logger st (NamedLogger "ddtrace")) = [] ->
        propagate (get_logger st (NamedLogger "ddtrace")) = true ->
        forall l,
          emit st' (NamedLogger "ddtrace") l
            = if L <=? levelno l then [n; n] else []).
Proof.
  intros LOG_LEVEL LOGGER_NAME n HL Hname Holdd.
  assert (Hrootd : RootLogger <> NamedLogger "ddtrace") by discriminate.
  unfold configure_logger. fold LOG_LEVEL. fold LOGGER_NAME.
  unfold bind at 1. cbn [getLogger String.eqb orb].
  unfold bind at 1. rewrite clear_root.
  unfold bind at 1. unfold setLevel_int at 1.
  set (s1 := set_logger (set_logger st RootLogger _) RootLogger _).
  unfold bind at 1.
  destruct (getLogger_view LOGGER_NAME s1) as (s2 & -> & Hv2 & Hc2).
  assert (Halias : (String.eqb LOGGER_NAME "" || String.eqb LOGGER_NAME "root")
                   = true).
  { destruct Hname as [-> | ->]; reflexivity. }
  rewrite Halias.
  unfold bind at 1. rewrite (setLevel_named _ _ L) by assumption.
  set (s3 := set_logger s2 _ _).
  unfold bind at 1. unfold StreamHandler at 1.
  set (s4 := with_created s3 _).
  unfold bind at 1. unfold setFormatter at 1.
  set (s5 := with_created s4 _).
  assert (Hc3 : created s3 = created st).
  { subst s3 s1. rewrite created_set_logger, Hc2, !created_set_logger.
    reflexivity. }
  assert (Hc5 : created s5
                = (created st
                     ++ [{| handler_level := 0; formatter := Some fmt |}])%list).
  { subst s5 s4. rewrite !created_with_created, Hc3, alter_last. reflexivity. }
  rewrite Hc3. fold n.
  assert (Hg5 : get_logger s5 RootLogger
                = {| lvl := L; handlers := [];
                     propagate := propagate (root st) |}).
  { subst s5 s4 s3. rewrite !get_with_created, get_set_same, Hv2. subst s1.
    rewrite get_set_same. cbn. reflexivity. }
  unfold bind at 1.
  rewrite addHandler_fresh by (rewrite Hg5; intros []).
  rewrite Hg5. cbn [lvl handlers propagate Datatypes.app].
  set (s6 := set_logger s5 _ _).
  unfold bind at 1.
  destruct (getLogger_view "ddtrace" s6) as (s7 & -> & Hv7 & Hc7).
  cbn [String.eqb Ascii.eqb Bool.eqb orb].
  assert (Hg6 : get_logger s6 (NamedLogger "ddtrace")
                = get_logger st (NamedLogger "ddtrace")).
  { subst s6 s5 s4 s3. rewrite get_set_other by congruence.
    rewrite !get_with_created, get_set_other by congruence.
    rewrite Hv2. subst s1. rewrite !get_set_other by congruence. reflexivity. }
  unfold bind at 1. rewrite (setLevel_named _ _ L) by assumption.
  rewrite Hv7, Hg6.
  set (s8 := set_logger s7 _ _).
  unfold bind at 1. rewrite addHandler_fresh;
    subst s8; rewrite get_set_same; cbn [lvl handlers propagate];
    [| intros Hin; apply Holdd in Hin; lia].
  unfold ret. eexists. split; [reflexivity |].
  set (st' := set_logger (set_logger s7 _ _) _ _).
  assert (Hroot' : get_logger st' RootLogger
                   = {| lvl := L; handlers := [n];
                        propagate := propagate (root st) |}).
  { subst st'. rewrite !get_set_other by congruence. rewrite Hv7. subst s6.
    rewrite get_set_same. reflexivity. }
  assert (Hdd' : get_logger st' (NamedLogger "ddtrace")
                 = {| lvl := L;
                      handlers :=
                        (handlers (get_logger st (NamedLogger "ddtrace"))
                           ++ [n])%list;
                      propagate :=
                        propagate (get_logger st (NamedLogger "ddtrace")) |}).
  { subst st'. rewrite get_set_same. reflexivity. }
  split; [exact Hroot' |]. split; [exact Hdd' |].
  intros Hnone Hprop l.
  assert (Hcreated : created st' !! n
                     = Some {| handler_level := 0; formatter := Some fmt |}).
  { subst st'. rewrite !created_set_logger, Hc7. subst s6.
    rewrite created_set_logger, Hc5.
    rewrite lookup_app_r by (fold n; lia).
    fold n. replace (n - n)%nat with 0%nat by lia. reflexivity. }
  unfold emit, getEffectiveLevel, callHandlers.
  rewrite chain_without_dots by reflexivity.
  cbn [map propagated]. rewrite Hdd', Hroot', Hnone, Hprop.
  cbn [lvl handlers propagate Datatypes.app].
  assert (Hup : (if propagate (root st) then [RootLogger] else [RootLogger])
                = [RootLogger]) by (destruct (propagate (root st)); reflexivity).
  rewrite Hup. cbn [map concat]. rewrite Hdd', Hroot', Hnone.
  cbn [handlers Datatypes.app List.filter]. rewrite Hcreated.
  cbn [handler_level].
  assert (Hpass : (0 <=? levelno l) = true) by (destruct l; reflexivity).
  rewrite Hpass.
  destruct (L =? 0) eqn:HL0; cbn [negb List.filter head default].
  - apply Z.eqb_eq in HL0. subst L. cbn. destruct l; reflexivity.
  - reflexivity.
Qed.

(** [configure_logger_root_name] at a concrete input. *)
Lemma configure_logger_root_name_witness :
  exists st',
    configure_logger {["DD_SERVICE" := ""]} initial = (Ok RootLogger, st')
    /\ get_logger st' RootLogger
       = {| lvl := 20; handlers := [0%nat]; propagate := true |}
    /\ get_logger st' (NamedLogger "ddtrace")
       = {| lvl := 20; handlers := [0%nat]; propagate := true |}
    /\ (handlers (get_logger initial (NamedLogger "ddtrace")) = [] ->
        propagate (get_logger initial (NamedLogger "ddtrace")) = true ->
        forall l,
          emit st' (NamedLogger "ddtrace") l
            = if 20 <=? levelno l then [0%nat; 0%nat] else []).
Proof.
  refine (configure_logger_root_name {["DD_SERVICE" := ""]} initial 20 _ _ _).
  - reflexivity.
  - left. reflexivity.
  - intros h [].
Defined.

End Configure.

(** ** logging_config.py: the formatted line *)

Section Format.
Import JsonFormatter.

Lemma dict_lookup_set (k k' : string) (v : value) (d : dict) :
  dict_lookup k (dict_set k' v d)
    = if String.eqb k k' then Some v else dict_lookup k d.
Proof.
  induction d as [| [k0 v0] d IH]; cbn.
  - destruct (String.eqb k k'); reflexivity.
  - destruct (String.eqb k' k0) eqn:Hk0; cbn.
    + apply String.eqb_eq in Hk0. subst k0.
      destruct (String.eqb k k'); reflexivity.
    + rewrite IH. destruct (String.eqb k k0) eqn:Hkk0; [| reflexivity].
      apply String.eqb_eq in Hkk0. subst k0.
      rewrite String.eqb_sym, Hk0. reflexivity.
Qed.

Lemma dict_lookup_update (k : string) (d other : dict) :
  ~ In k (map fst other) ->
  dict_lookup k (dict_update d other) = dict_lookup k d.
Proof.
  unfold dict_update. revert d.
  induction other as [| [k' v'] other IH]; cbn; intros d Hnot; [reflexivity |].
  rewrite IH by tauto. rewrite dict_lookup_set.
  destruct (String.eqb k k') eqn:Heq; [| reflexivity].
  apply String.eqb_eq in Heq. subst. tauto.
Qed.

Lemma dict_lookup_merge (k : string) (record target : dict)
    (reserved : list string) :
  existsb (String.eqb k) reserved = true ->
  dict_lookup k (merge_record_extra record target reserved)
    = dict_lookup k target.
Proof.
  intros Hres. unfold merge_record_extra. revert target.
  induction record as [| [k' v'] record IH]; cbn; intros target; [reflexivity |].
  rewrite IH.
  destruct (existsb (String.eqb k') reserved) eqn:Hk'; cbn; [reflexivity |].
  destruct (starts_with_underscore k'); cbn; [reflexivity |].
  rewrite dict_lookup_set.
  destruct (String.eqb k k') eqn:Heq; [| reflexivity].
  apply String.eqb_eq in Heq. subst. congruence.
Qed.

Lemma not_attr_not_in (k : string) (extra : dict) :
  find is_record_attr (map fst extra) = None ->
  is_record_attr k = true ->
  ~ In k (map fst extra).
Proof.
  intros Hfree Hattr Hin. rewrite (find_none _ _ Hfree _ Hin) in Hattr.
  discriminate.
Qed.

Lemma parse_fmt :
  parse Logging.fmt
    = ["levelname"; "asctime"; "name"; "message"; "lineno"; "pathname"].
Proof. reflexivity. Qed.




(** *** The other fields of the line *)

Lemma dict_lookup_absent (k : string) (d : dict) :
  ~ In k (map fst d) -> dict_lookup k d = None.
Proof.
  induction d as [| [k' v'] d IH]; cbn; intros Hnot; [reflexivity |].
  destruct (String.eqb k k') eqn:Heq.
  - apply String.eqb_eq in Heq. subst. tauto.
  - apply IH. tauto.
Qed.

(** [dict_set] keeps the keys of a dict distinct. *)
Lemma dict_set_key_list (k : string) (v : value) (d : dict) :
  map fst (dict_set k v d)
    = if existsb (String.eqb k) (map fst d) then map fst d
      else (map fst d ++ [k])%list.
Proof.
  induction d as [| [k' v'] d IH]; cbn; [reflexivity |].
  destruct (String.eqb k k') eqn:Heq; cbn.
  - apply String.eqb_eq in Heq. subst. reflexivity.
  - rewrite IH. destruct (existsb (String.eqb k) (map fst d)); reflexivity.
Qed.

Lemma dict_set_NoDup (k : string) (v : value) (d : dict) :
  NoDup (map fst d) -> NoDup (map fst (dict_set k v d)).
Proof.
  intros Hd. rewrite dict_set_key_list.
  destruct (existsb (String.eqb k) (map fst d)) eqn:Hex; [exact Hd |].
  apply NoDup_app. split; [exact Hd |]. split; [| apply NoDup_singleton].
  intros x Hx Hk. apply list_elem_of_singleton in Hk. subst x.
  assert (Hcontra : existsb (String.eqb k) (map fst d) = true).
  { apply existsb_exists. exists k. split.
    - apply list_elem_of_In. exact Hx.
    - apply String.eqb_refl. }
  congruence.
Qed.

Lemma dict_update_NoDup (d other : dict) :
  NoDup (map fst d) -> NoDup (map fst (dict_update d other)).
Proof.
  unfold dict_update. revert d.
  induction other as [| [k v] other IH]; cbn; intros d Hd; [exact Hd |].
  apply IH. apply dict_set_NoDup. exact Hd.
Qed.

Lemma dict_lookup_update_in (k : string) (v : value) (d other : dict) :
  NoDup (map fst other) -> In (k, v) other ->
  dict_lookup k (dict_update d other) = Some v.
Proof.
  unfold dict_update. revert d.
  induction other as [| [k1 v1] other IH]; cbn; intros d Hnodup Hin; [tauto |].
  apply NoDup_cons in Hnodup. destruct Hnodup as [Hk1 Hrest].
  destruct Hin as [[= -> ->] | Hin].
  - change (dict_lookup k (dict_update (dict_set k v d) other) = Some v).
    rewrite dict_lookup_update
      by (intros Hin; apply Hk1; apply list_elem_of_In; exact Hin).
    rewrite dict_lookup_set, String.eqb_refl. reflexivity.
  - apply IH; assumption.
Qed.

(** An attribute that is neither reserved nor private is copied over. *)
Lemma dict_lookup_merge_copied (k : string) (record target : dict)
    (reserved : list string) :
  NoDup (map fst record) ->
  existsb (String.eqb k) reserved = false ->
  starts_with_underscore k = false ->
  dict_lookup k (merge_record_extra record target reserved)
    = match dict_lookup k record with
      | Some v => Some v
      | None => dict_lookup k target
      end.
Proof.
  intros Hnodup Hres Hpub. unfold merge_record_extra. revert target Hnodup.
  induction record as [| [k' v'] record IH]; cbn; intros target Hnodup;
    [reflexivity |].
  apply NoDup_cons in Hnodup. destruct Hnodup as [Hk' Hrest].
  rewrite IH by exact Hrest.
  destruct (String.eqb k k') eqn:Heq.
  - apply String.eqb_eq in Heq. subst k'.
    rewrite dict_lookup_absent
      by (intros Hin; apply Hk'; apply list_elem_of_In; exact Hin).
    rewrite Hres, Hpub. cbn. rewrite dict_lookup_set, String.eqb_refl.
    reflexivity.
  - destruct (dict_lookup k record); [reflexivity |].
    destruct (negb (existsb (String.eqb k') reserved)
              && negb (starts_with_underscore k')); [| reflexivity].
    rewrite dict_lookup_set, Heq. reflexivity.
Qed.

(** A private attribute (leading underscore) is never copied. *)
Lemma dict_lookup_merge_private (k : string) (record target : dict)
    (reserved : list string) :
  starts_with_underscore k = true ->
  dict_lookup k (merge_record_extra record target reserved)
    = dict_lookup k target.
Proof.
  intros Hpriv. unfold merge_record_extra. revert target.
  induction record as [| [k' v'] record IH]; cbn; intros target; [reflexivity |].
  rewrite IH.
  destruct (negb (existsb (String.eqb k') reserved)
            && negb (starts_with_underscore k')) eqn:Hpass; [| reflexivity].
  rewrite dict_lookup_set.
  destruct (String.eqb k k') eqn:Heq; [| reflexivity].
  apply String.eqb_eq in Heq. subst k'. rewrite Hpriv in Hpass.
  rewrite andb_false_r in Hpass. discriminate.
Qed.

Lemma not_record_attr_not_skipped (k : string) :
  is_record_attr k = false ->
  existsb (String.eqb k) (parse Logging.fmt ++ RESERVED_ATTRS) = false.
Proof.
  intros Hattr.
  destruct (existsb (String.eqb k) (parse Logging.fmt ++ RESERVED_ATTRS))
    eqn:Hex; [| reflexivity].
  apply existsb_exists in Hex. destruct Hex as (x & Hx & Heq).
  apply String.eqb_eq in Heq. subst x.
  assert (Hall : forallb is_record_attr (parse Logging.fmt ++ RESERVED_ATTRS)
                 = true) by reflexivity.
  rewrite forallb_forall in Hall. rewrite (Hall k Hx) in Hattr. discriminate.
Qed.

Lemma record_dict_NoDup (r : LogRecord) : NoDup (map fst (record_dict r)).
Proof.
  unfold record_dict. do 2 apply dict_set_NoDup. apply dict_update_NoDup.
  cbn. compute_done.
Qed.

(** X13: every field a call passes in [extra] is at the top level of the
    formatted line with its value, except a field whose name starts with an
    underscore, which is left out. *)
Theorem json_line_carries_extra (logger_name : string) (c : log_call)
    (path : string) (line : Z) (time : string)
    (formatException : exn -> string) (r : LogRecord) :
  makeRecord logger_name c path line time formatException = Ok r ->
  NoDup (map fst (call_extra c)) ->
  exists fields,
    format Logging.fmt r = VDict fields
    /\ forall k v,
         In (k, v) (call_extra c) ->
         dict_lookup k fields
           = if starts_with_underscore k then None else Some v.
Proof.
  unfold makeRecord.
  destruct (find is_record_attr (map fst (call_extra c))) eqn:Hfree;
    [discriminate |].
  intros [= <-] Hnodup. eexists. split; [reflexivity |].
  intros k v Hin.
  assert (Hattr : is_record_attr k = false).
  { apply (find_none _ _ Hfree). apply in_map_iff. exists (k, v). auto. }
  unfold add_fields.
  set (r := {| name := logger_name |}).
  set (md := match exc_text r with Some _ => _ | None => _ end).
  destruct (starts_with_underscore k) eqn:Hpriv.
  - rewrite dict_lookup_merge_private by exact Hpriv.
    rewrite dict_lookup_update.
    + rewrite parse_fmt. destruct k as [| ch rest]; [discriminate |].
      cbn in Hpriv. apply Ascii.eqb_eq in Hpriv. subst ch. reflexivity.
    + subst md. destruct (exc_text r); cbn; [| tauto].
      intros [<- | []]. discriminate.
  - rewrite dict_lookup_merge_copied;
      [| apply record_dict_NoDup
       | apply not_record_attr_not_skipped; exact Hattr
       | exact Hpriv].
    unfold record_dict. rewrite !dict_lookup_set.
    assert (Hasctime : String.eqb k "asctime" = false).
    { apply String.eqb_neq. intros ->. discriminate. }
    assert (Hmessage : String.eqb k "message" = false).
    { apply String.eqb_neq. intros ->. discriminate. }
    rewrite Hasctime, Hmessage.
    rewrite (dict_lookup_update_in k v) by assumption. reflexivity.
Qed.

(** [json_line_carries_extra] at a concrete input. *)
Lemma json_line_carries_extra_witness :
  exists fields,
    format Logging.fmt
      {| name := "my-fastapi-app"; record_level := INFO;
         pathname := "/app/services/item_service.py"; lineno := 19;
         message := "ItemService: Starting to process item ID: 5";
         asctime := "2024-05-01 12:00:00,000";
         exc_text := None;
         extra := [("item_id", VInt 5); ("_private", VNone)] |}
      = VDict fields
    /\ forall k v,
         In (k, v) [("item_id", VInt 5); ("_private", VNone)] ->
         dict_lookup k fields
           = if starts_with_underscore k then None else Some v.
Proof.
  refine (json_line_carries_extra "my-fastapi-app"
            (LogCall INFO "ItemService: Starting to process item ID: 5"
               [("item_id", VInt 5); ("_private", VNone)] None)
            "/app/services/item_service.py" 19 "2024-05-01 12:00:00,000"
            str_exn _ _ _).
  - vm_compute. reflexivity.
  - cbn. compute_done.
Defined.

Lemma record_dict_location (r : LogRecord) :
  find is_record_attr (map fst (extra r)) = None ->
  dict_lookup "lineno" (record_dict r) = Some (VInt (lineno r))
  /\ dict_lookup "pathname" (record_dict r) = Some (VStr (pathname r)).
Proof.
  intros Hfree. unfold record_dict. rewrite !dict_lookup_set.
  cbn -[dict_update].
  rewrite !dict_lookup_update
    by (apply not_attr_not_in; [exact Hfree | reflexivity]).
  split; reflexivity.
Qed.

(** X14: the formatted line holds the source line and path of the call, and
    a field [exc_info] with the formatted exception exactly when the call
    gave one. *)
Theorem json_line_exception_and_location (logger_name : string) (c : log_call)
    (path : string) (line : Z) (time : string)
    (formatException : exn -> string) (r : LogRecord) :
  makeRecord logger_name c path line time formatException = Ok r ->
  exists fields,
    format Logging.fmt r = VDict fields
    /\ dict_lookup "exc_info" fields
       = (fun e => VStr (formatException e)) <$> call_exc_info c
    /\ dict_lookup "lineno" fields = Some (VInt line)
    /\ dict_lookup "pathname" fields = Some (VStr path).
Proof.
  unfold makeRecord.
  destruct (find is_record_attr (map fst (call_extra c))) eqn:Hfree;
    [discriminate |].
  intros [= <-]. eexists. split; [reflexivity |].
  rewrite parse_fmt. unfold add_fields.
  set (r := {| name := logger_name |}).
  destruct (record_dict_location r Hfree) as (Hline & Hpath).
  rewrite !dict_lookup_merge by reflexivity.
  assert (Hexc : exc_text r = formatException <$> call_exc_info c)
    by reflexivity.
  rewrite Hexc.
  destruct (call_exc_info c) as [e |]; cbn -[record_dict];
    rewrite Hline, Hpath; repeat split; reflexivity.
Qed.

(** [json_line_exception_and_location] at a concrete input. *)
Lemma json_line_exception_and_location_witness :
  exists fields,
    format Logging.fmt
      {| name := "my-fastapi-app"; record_level := ERROR;
         pathname := "/app/main.py"; lineno := 110;
         message := "Failed to process item 7 in API route: boom";
         asctime := "2024-05-01 12:00:00,000";
         exc_text := Some "boom";
         extra := [("item_id_param", VInt 7)] |}
      = VDict fields
    /\ dict_lookup "exc_info" fields = Some (VStr "boom")
    /\ dict_lookup "lineno" fields = Some (VInt 110)
    /\ dict_lookup "pathname" fields = Some (VStr "/app/main.py").
Proof.
  refine (json_line_exception_and_location "my-fastapi-app"
            (LogCall ERROR "Failed to process item 7 in API route: boom"
               [("item_id_param", VInt 7)] (Some (PyError "ValueError" "boom")))
            "/app/main.py" 110 "2024-05-01 12:00:00,000" str_exn _ _).
  vm_compute. reflexivity.
Defined.

End Format.
